(** * gaussian_renderer.render: merging two Gaussian clouds for rasterization

    A shallow embedding of [src/gaussian_renderer/__init__.py]:

    - scalars are IEEE-754 binary floats ([spec_float]), so that NaN and
      signed zeros behave as they do in a tensor;
    - a tensor is its shape, its elements and the three autograd flags
      that [retain_grad] inspects;
    - the body of [render] runs in a small monad with exceptions and a
      trace of the calls whose order and arguments matter: the
      gradient-retention request, the evaluation of the spherical
      harmonics and the rasterizer invocation;
    - the collaborators that are imported from other packages
      ([GaussianRasterizer], [eval_sh], [math.tan]) are section variables. *)

From Stdlib Require Import List ZArith Bool Arith Lia.
From Stdlib Require Import Floats.SpecFloat.
Import ListNotations.

(* ===================================================================== *)
(** * Scalars *)
(* ===================================================================== *)

(** A tensor element or a Python [float].  The format [(prec, emax)] is the
    dtype: (24, 128) for [torch.float32], (53, 1024) for [torch.float64]
    and for Python's own [float]. *)
Definition scalar : Type := spec_float.

Definition fzero : scalar := S754_zero false.

Definition is_nan (x : scalar) : bool :=
  match x with S754_nan => true | _ => false end.

Definition is_infinite (x : scalar) : bool :=
  match x with S754_infinity _ => true | _ => false end.

Definition is_zero (x : scalar) : bool :=
  match x with S754_zero _ => true | _ => false end.

(** The literal [0.5] in the format [(prec, emax)]. *)
Definition fhalf (prec emax : Z) : scalar :=
  binary_normalize prec emax 1 (-1) false.

(** Python's [float] is binary64. *)
Definition py_prec : Z := 53.
Definition py_emax : Z := 1024.
Definition py_mul : scalar -> scalar -> scalar := SFmul py_prec py_emax.

(** [std::max(a, lo)], what [clamp_min] applies to every element: [lo] when
    [a < lo], otherwise [a] itself, so a NaN stays a NaN. *)
Definition fclamp_min (lo a : scalar) : scalar :=
  if SFltb a lo then lo else a.

(* ===================================================================== *)
(** * Tensors *)
(* ===================================================================== *)

(** A tensor with at least one axis.  Axis 0 is the list structure of
    [items]; every item is the row-major content of one slice [t[i]], of
    shape [item_shape].  So an [N x 3] tensor has [item_shape = [3]] and [N]
    items of length 3, and a vector of length 3 has [item_shape = []] and
    three items of length 1.

    The last four fields are what autograd keeps about the tensor.
    [grad_inputs] is the graph edge list of a result that requires grad,
    one flag per tensor operand of the operation that made it: whether the
    gradient flows back into that operand (the entries of
    [grad_fn.next_functions] that are not [None]).  It is empty for a
    tensor that was not made by a recorded operation. *)
Record tensor : Type := mk_tensor {
  item_shape : list nat;
  items : list (list scalar);
  requires_grad : bool;
  is_leaf : bool;
  retains_grad : bool;
  grad_inputs : list bool
}.

Definition size0 (t : tensor) : nat := length (items t).

Definition shape (t : tensor) : list nat := size0 t :: item_shape t.

Definition numel (s : list nat) : nat := fold_right Nat.mul 1 s.

Definition flat (t : tensor) : list scalar := concat (items t).

(** Every item has as many elements as [item_shape] says. *)
Definition rectangular (t : tensor) : bool :=
  forallb (fun it => length it =? numel (item_shape t)) (items t).

Definition shape_eqb (s1 s2 : list nat) : bool :=
  if list_eq_dec Nat.eq_dec s1 s2 then true else false.

(** [t] is a well-formed tensor of shape [n :: s]. *)
Definition has_shape (t : tensor) (n : nat) (s : list nat) : bool :=
  (size0 t =? n) && shape_eqb (item_shape t) s && rectangular t.

(** [n] consecutive pieces of [k] elements. *)
Fixpoint chunks (n k : nat) (l : list scalar) : list (list scalar) :=
  match n with
  | 0 => []
  | S n' => firstn k l :: chunks n' k (skipn k l)
  end.

Definition map2 (f : scalar -> scalar -> scalar) (xs ys : list scalar)
  : list scalar :=
  map (fun p => f (fst p) (snd p)) (combine xs ys).

(** ** Broadcasting *)

(** The common shape of two shapes of equal rank, if there is one. *)
Fixpoint bshape (s1 s2 : list nat) : option (list nat) :=
  match s1, s2 with
  | [], [] => Some []
  | a :: s1', b :: s2' =>
      match bshape s1' s2' with
      | Some r =>
          if a =? b then Some (a :: r)
          else if a =? 1 then Some (b :: r)
          else if b =? 1 then Some (a :: r)
          else None
      | None => None
      end
  | _, _ => None
  end.

(** Shapes are aligned on the right; missing axes count as 1. *)
Definition pad (n : nat) (s : list nat) : list nat :=
  repeat 1 (n - length s) ++ s.

(** The elements of a tensor of shape [s_in], repeated along every axis
    where [s_in] has 1 and [s_out] has more. *)
Fixpoint expand (s_in s_out : list nat) (d : list scalar) : list scalar :=
  match s_in, s_out with
  | a :: s_in', b :: s_out' =>
      let parts := map (expand s_in' s_out') (chunks a (numel s_in') d) in
      if a =? b then concat parts else concat (concat (repeat parts b))
  | _, _ => d
  end.

(** The item at position [(i, j)] of an [a x b] grid of blocks moves to
    position [(j, i)]. *)
Definition transpose_item (a b k : nat) (d : list scalar) : list scalar :=
  let blocks := chunks (a * b) k d in
  concat (flat_map (fun j => map (fun i => nth (i * b + j) blocks [])
                                 (seq 0 a))
                   (seq 0 b)).

(* ===================================================================== *)
(** * The data [render] receives and hands on *)
(* ===================================================================== *)

(** The attributes of [scene.gaussian_model.GaussianModel] that [render]
    reads.  The class itself is defined elsewhere; a property such as
    [get_xyz] is modelled by the value it returns. *)
Record GaussianModel : Type := {
  get_xyz : tensor;
  _xyz : tensor;
  _opacity : tensor;
  get_scaling : tensor;
  get_rotation : tensor;
  get_features : tensor;
  get_covariance : scalar -> tensor;
  max_sh_degree : nat;
  active_sh_degree : nat
}.

Record Camera : Type := {
  FoVx : scalar;
  FoVy : scalar;
  image_height : Z;
  image_width : Z;
  world_view_transform : tensor;
  full_proj_transform : tensor;
  camera_center : tensor
}.

Record PipelineParams : Type := {
  compute_cov3D_python : bool;
  convert_SHs_python : bool;
  debug : bool
}.

Record GaussianRasterizationSettings : Type := {
  rs_image_height : Z;
  rs_image_width : Z;
  rs_tanfovx : scalar;
  rs_tanfovy : scalar;
  rs_bg : tensor;
  rs_scale_modifier : scalar;
  rs_viewmatrix : tensor;
  rs_projmatrix : tensor;
  rs_sh_degree : nat;
  rs_campos : tensor;
  rs_prefiltered : bool;
  rs_debug : bool
}.

(** The keyword arguments of the rasterizer call; [None] is Python's
    [None]. *)
Record RasterizerArgs : Type := {
  means3D : tensor;
  means2D : tensor;
  shs : option tensor;
  colors_precomp : option tensor;
  opacities : tensor;
  scales : option tensor;
  rotations : option tensor;
  cov3D_precomp : option tensor
}.

(** The dictionary [render] returns, one field per key ([rendered] is the
    key ["render"]). *)
Record RenderOutput : Type := {
  rendered : tensor;
  viewspace_points : tensor;
  visibility_filter : list bool;
  radii : list Z
}.

(* ===================================================================== *)
(** * Python control effects *)
(* ===================================================================== *)

Inductive exn : Type :=
| RuntimeError
| IndexError
| ValueError
| ExternalError.

Inductive result (A : Type) : Type :=
| Ok (a : A)
| Raise (e : exn).
Arguments Ok {A} a.
Arguments Raise {A} e.

(** What an observer of one call of [render] sees happen. *)
Inductive event : Type :=
| EvRetainGrad (succeeded : bool)
| EvEvalSH (deg : nat) (sh dirs : tensor)
| EvRasterize (settings : GaussianRasterizationSettings)
              (args : RasterizerArgs).

(** A computation extends the trace (oldest event first); an exception
    keeps what was written before it was raised. *)
Definition M (A : Type) : Type := list event -> list event * result A.

Definition ret {A} (a : A) : M A := fun tr => (tr, Ok a).

Definition bind {A B} (m : M A) (k : A -> M B) : M B :=
  fun tr =>
    match m tr with
    | (tr', Ok a) => k a tr'
    | (tr', Raise e) => (tr', Raise e)
    end.

Definition lift {A} (r : result A) : M A := fun tr => (tr, r).

Definition emit (e : event) : M unit := fun tr => (tr ++ [e], Ok tt).

(** [try: body / except: handler], with a bare [except]. *)
Definition try_except {A} (body handler : M A) : M A :=
  fun tr =>
    match body tr with
    | (tr', Ok a) => (tr', Ok a)
    | (tr', Raise _) => handler tr'
    end.

Definition run {A} (m : M A) : list event * result A := m [].

Declare Scope py_scope.
Delimit Scope py_scope with py.
Notation "x <- m ;; k" := (bind m (fun x => k))
  (at level 61, m at next level, right associativity) : py_scope.
Notation "' p <- m ;; k" := (bind m (fun x => match x with p => k end))
  (at level 61, p pattern, m at next level, right associativity) : py_scope.
Notation "m ;;; k" := (bind m (fun _ => k))
  (at level 61, right associativity) : py_scope.
Open Scope py_scope.


(* ===================================================================== *)
(** * Well-shaped inputs *)
(* ===================================================================== *)

(** The number of coefficients per colour channel, [(max_sh_degree+1)**2]. *)
Definition sh_coeffs (c : GaussianModel) : nat := (max_sh_degree c + 1) ^ 2.

(** A cloud of [n] primitives, [n] being the number of rows of [get_xyz]:
    positions [n x 3], opacity [n x 1], scale [n x 3], rotation [n x 4],
    features [n x K x 3] (the layout that line 86 transposes to
    [n x 3 x K]) and covariance [n x 6]. *)
Definition cloud_ok (scaling_modifier : scalar) (c : GaussianModel) : bool :=
  let n := size0 (get_xyz c) in
  has_shape (get_xyz c) n [3]
  && has_shape (_xyz c) n [3]
  && has_shape (_opacity c) n [1]
  && has_shape (get_scaling c) n [3]
  && has_shape (get_rotation c) n [4]
  && has_shape (get_features c) n [sh_coeffs c; 3]
  && has_shape (get_covariance c scaling_modifier) n [6].

(** Half of each field-of-view angle is something [math.tan] accepts:
    it raises [ValueError] on an infinity and on nothing else. *)
Definition fov_ok (cam : Camera) : bool :=
  negb (is_infinite (py_mul (FoVx cam) (fhalf py_prec py_emax)))
  && negb (is_infinite (py_mul (FoVy cam) (fhalf py_prec py_emax))).

(** The camera position is a vector of three coordinates, and the two
    angles are acceptable. *)
Definition camera_ok (cam : Camera) : bool :=
  has_shape (camera_center cam) 3 [] && fov_ok cam.

(** What [render] expects of its inputs: two well-shaped clouds with the
    same number of spherical-harmonics coefficients, and a camera. *)
Definition inputs_ok (cam : Camera) (pc prePC : GaussianModel)
  (scaling_modifier : scalar) : Prop :=
  cloud_ok scaling_modifier pc = true
  /\ cloud_ok scaling_modifier prePC = true
  /\ camera_ok cam = true
  /\ max_sh_degree pc = max_sh_degree prePC.

(** [rows] has [n1 + n2] entries; the first [n1] are those of [a], in
    order, and the next [n2] are those of [b]. *)
Definition dynamic_first {X : Type} (n1 n2 : nat) (rows a b : list X)
  : Prop :=
  rows = a ++ b
  /\ length rows = n1 + n2
  /\ (forall i, i < n1 -> nth_error rows i = nth_error a i)
  /\ (forall i, n1 <= i -> i < n1 + n2 ->
                nth_error rows i = nth_error b (i - n1)).

(** The same cloud with other spherical-harmonics features. *)
Definition with_features (c : GaussianModel) (f : tensor) : GaussianModel :=
  {| get_xyz := get_xyz c; _xyz := _xyz c; _opacity := _opacity c;
     get_scaling := get_scaling c; get_rotation := get_rotation c;
     get_features := f; get_covariance := get_covariance c;
     max_sh_degree := max_sh_degree c;
     active_sh_degree := active_sh_degree c |}.

(** The same cloud with another active degree. *)
Definition with_active_sh_degree (c : GaussianModel) (d : nat)
  : GaussianModel :=
  {| get_xyz := get_xyz c; _xyz := _xyz c; _opacity := _opacity c;
     get_scaling := get_scaling c; get_rotation := get_rotation c;
     get_features := get_features c; get_covariance := get_covariance c;
     max_sh_degree := max_sh_degree c;
     active_sh_degree := d |}.

(** Rows of zeros, one per item of [t]. *)
Definition zero_rows (t : tensor) : list (list scalar) :=
  map (map (fun _ => fzero)) (items t).

(** The same cloud with another covariance method. *)
Definition with_covariance (c : GaussianModel) (f : scalar -> tensor)
  : GaussianModel :=
  {| get_xyz := get_xyz c; _xyz := _xyz c; _opacity := _opacity c;
     get_scaling := get_scaling c; get_rotation := get_rotation c;
     get_features := get_features c; get_covariance := f;
     max_sh_degree := max_sh_degree c;
     active_sh_degree := active_sh_degree c |}.

(** The same cloud with other scales and rotations. *)
Definition with_scaling_rotation (c : GaussianModel) (sc ro : tensor)
  : GaussianModel :=
  {| get_xyz := get_xyz c; _xyz := _xyz c; _opacity := _opacity c;
     get_scaling := sc; get_rotation := ro;
     get_features := get_features c; get_covariance := get_covariance c;
     max_sh_degree := max_sh_degree c;
     active_sh_degree := active_sh_degree c |}.

(** A number, zero included: neither an infinity nor a NaN. *)
Definition is_finite (x : scalar) : bool :=
  match x with
  | S754_zero _ | S754_finite _ _ _ => true
  | _ => false
  end.

(* ===================================================================== *)
(** * A small scene *)
(* ===================================================================== *)

(** Two primitives in the dynamic cloud, one in the secondary cloud, four
    coefficients per channel ([max_sh_degree = 1]), float32 tensors. *)

Definition f32 (m e : Z) : scalar := binary_normalize 24 128 m e false.

Definition f32_neg (m e : Z) : scalar := SFopp (f32 m e).

Definition leaf (sh : list nat) (its : list (list scalar)) (rg : bool)
  : tensor :=
  {| item_shape := sh; items := its;
     requires_grad := rg; is_leaf := true; retains_grad := false;
     grad_inputs := [] |}.

Definition row_of (zs : list Z) : list scalar := map (fun z => f32 z 0) zs.

(** One primitive's features: coefficient-major, [K = 4] rows of
    [(r, g, b)]. *)
Definition demo_features_a : list scalar :=
  row_of [1; 2; 3; 4; 5; 6; 7; 8; 9; 10; 11; 12]%Z.

Definition demo_features_b : list scalar :=
  [f32_neg 2 0; f32 1 0; f32 0 0] ++ row_of [0; 0; 0; 0; 0; 0; 0; 0; 0]%Z.

Definition demo_pc : GaussianModel :=
  {| get_xyz := leaf [3] [row_of [4; 2; 3]; row_of [1; 6; 3]]%Z true;
     _xyz := leaf [3] [row_of [4; 2; 3]; row_of [1; 6; 3]]%Z true;
     _opacity := leaf [1] [[f32_neg 1 0]; [f32 2 0]] true;
     get_scaling := leaf [3] [row_of [1; 1; 1]; row_of [2; 2; 2]]%Z true;
     get_rotation := leaf [4] [row_of [1; 0; 0; 0]; row_of [1; 0; 0; 0]]%Z true;
     get_features := leaf [4; 3] [demo_features_a; demo_features_b] true;
     get_covariance :=
       fun m => leaf [6] [repeat m 6; repeat (py_mul m m) 6] true;
     max_sh_degree := 1;
     active_sh_degree := 0 |}.

Definition demo_prePC : GaussianModel :=
  {| get_xyz := leaf [3] [row_of [1; 2; 7]]%Z false;
     _xyz := leaf [3] [row_of [1; 2; 7]]%Z false;
     _opacity := leaf [1] [[f32 3 0]] false;
     get_scaling := leaf [3] [row_of [3; 3; 3]]%Z false;
     get_rotation := leaf [4] [row_of [0; 1; 0; 0]]%Z false;
     get_features := leaf [4; 3] [demo_features_a] false;
     get_covariance := fun m => leaf [6] [repeat m 6] false;
     max_sh_degree := 1;
     active_sh_degree := 1 |}.

(** A dynamic cloud whose accessor [get_xyz] does not return the stored
    [_xyz] (the first primitive is reported one unit further along y). *)
Definition demo_pc_moved : GaussianModel :=
  {| get_xyz := leaf [3] [row_of [4; 3; 3]; row_of [1; 6; 3]]%Z true;
     _xyz := _xyz demo_pc;
     _opacity := _opacity demo_pc;
     get_scaling := get_scaling demo_pc;
     get_rotation := get_rotation demo_pc;
     get_features := get_features demo_pc;
     get_covariance := get_covariance demo_pc;
     max_sh_degree := 1;
     active_sh_degree := 0 |}.

Definition demo_camera : Camera :=
  {| FoVx := f32 1 0;
     FoVy := f32 1 0;
     image_height := 4;
     image_width := 6;
     world_view_transform := leaf [4] [] false;
     full_proj_transform := leaf [4] [] false;
     camera_center := leaf [] [[f32 1 0]; [f32 2 0]; [f32 3 0]] false |}.

Definition demo_bg : tensor := leaf [] [[fzero]; [fzero]; [fzero]] false.

Definition demo_pipe (cov sh : bool) : PipelineParams :=
  {| compute_cov3D_python := cov; convert_SHs_python := sh; debug := false |}.

Definition demo_override : tensor :=
  leaf [3] [row_of [1; 0; 0]; row_of [0; 1; 0]; row_of [0; 0; 1]]%Z false.

(** A stand-in rasterizer: an empty image, and radius 1 for a primitive
    whose x coordinate is above 2, radius 0 otherwise. *)
Definition demo_rasterizer (s : GaussianRasterizationSettings)
  (a : RasterizerArgs) : result (tensor * list Z) :=
  Ok (leaf [Z.to_nat (rs_image_width s)] [] false,
      map (fun row => if SFltb (f32 2 0) (hd fzero row) then 1%Z else 0%Z)
          (items (means3D a))).

(** A stand-in evaluator: the constant term of the basis,
    [0.28209479 * sh[..., 0]], whatever the degree and the directions. *)
Definition demo_eval_sh (deg : nat) (sh dirs : tensor) : result tensor :=
  let k := nth 1 (item_shape sh) 0 in
  Ok (leaf [3]
        (map (fun it =>
                map (fun c => SFmul 24 128 (f32 9465531 (-25))
                                    (nth (c * k) it fzero))
                    (seq 0 3))
             (items sh))
        false).

(** A stand-in for the values of [math.tan], exact at 0 only. *)
Definition demo_tan (x : scalar) : scalar := x.

(** A stand-in for the norm kernel: the squares are accumulated from left
    to right and every step is rounded to float32. *)
Definition demo_norm (d : list scalar) : scalar :=
  SFsqrt 24 128
    (fold_left (fun acc x => SFadd 24 128 acc (SFmul 24 128 x x)) d fzero).

(** A stand-in for the stride check: only a view that keeps the shape is
    allowed. *)
Definition demo_view_allowed (t : tensor) (s : list nat) : bool :=
  shape_eqb (shape t) s.

(** A stand-in evaluator with a linear term: the constant term for degree
    0, and for a higher degree also
    [0.48860251 * (- y * sh[..., 1] + z * sh[..., 2] - x * sh[..., 3])],
    [(x, y, z)] being the primitive's direction. *)
Definition demo_eval_sh_linear (deg : nat) (sh dirs : tensor)
  : result tensor :=
  let k := nth 1 (item_shape sh) 0 in
  let mul := SFmul 24 128 in
  let c0 := f32 9465531 (-25) in
  let c1 := f32 16394780 (-25) in
  Ok (leaf [3]
        (map (fun p =>
                let it := fst p in
                let x := nth 0 (snd p) fzero in
                let y := nth 1 (snd p) fzero in
                let z := nth 2 (snd p) fzero in
                map (fun c =>
                       let base := mul c0 (nth (c * k) it fzero) in
                       if 1 <=? deg then
                         SFsub 24 128
                           (SFadd 24 128
                              (SFsub 24 128 base
                                 (mul (mul c1 y) (nth (c * k + 1) it fzero)))
                              (mul (mul c1 z) (nth (c * k + 2) it fzero)))
                           (mul (mul c1 x) (nth (c * k + 3) it fzero))
                       else base)
                    (seq 0 3))
             (combine (items sh) (items dirs)))
        false).

(** A camera with an unbounded horizontal field of view. *)
Definition demo_camera_unbounded : Camera :=
  {| FoVx := S754_infinity false;
     FoVy := FoVy demo_camera;
     image_height := image_height demo_camera;
     image_width := image_width demo_camera;
     world_view_transform := world_view_transform demo_camera;
     full_proj_transform := full_proj_transform demo_camera;
     camera_center := camera_center demo_camera |}.

(** A secondary cloud without primitives. *)
Definition demo_prePC_empty : GaussianModel :=
  {| get_xyz := leaf [3] [] false;
     _xyz := leaf [3] [] false;
     _opacity := leaf [1] [] false;
     get_scaling := leaf [3] [] false;
     get_rotation := leaf [4] [] false;
     get_features := leaf [4; 3] [] false;
     get_covariance := fun _ => leaf [6] [] false;
     max_sh_degree := 1;
     active_sh_degree := 1 |}.

(** A secondary cloud that stores the constant coefficient only
    ([max_sh_degree = 0]). *)
Definition demo_prePC_flat : GaussianModel :=
  {| get_xyz := get_xyz demo_prePC;
     _xyz := _xyz demo_prePC;
     _opacity := _opacity demo_prePC;
     get_scaling := get_scaling demo_prePC;
     get_rotation := get_rotation demo_prePC;
     get_features := leaf [1; 3] [row_of [1; 2; 3]%Z] false;
     get_covariance := get_covariance demo_prePC;
     max_sh_degree := 0;
     active_sh_degree := 0 |}.

(** A dynamic cloud whose second primitive sits at the position of
    [demo_camera]. *)
Definition demo_pc_at_camera : GaussianModel :=
  {| get_xyz := leaf [3] [row_of [4; 2; 3]; row_of [1; 2; 3]]%Z true;
     _xyz := leaf [3] [row_of [4; 2; 3]; row_of [1; 2; 3]]%Z true;
     _opacity := _opacity demo_pc;
     get_scaling := get_scaling demo_pc;
     get_rotation := get_rotation demo_pc;
     get_features := get_features demo_pc;
     get_covariance := get_covariance demo_pc;
     max_sh_degree := 1;
     active_sh_degree := 0 |}.

(** Collaborators that fail. *)
Definition failing_eval_sh (deg : nat) (sh dirs : tensor) : result tensor :=
  Raise ExternalError.

Definition failing_rasterizer (s : GaussianRasterizationSettings)
  (a : RasterizerArgs) : result (tensor * list Z) :=
  Raise ExternalError.

(* ===================================================================== *)
(** * The tensor operations and [render] *)
(* ===================================================================== *)

Section Render.

(** The dtype of the tensors of one call. *)
Variables prec emax : Z.

(** [torch.is_grad_enabled()]: false under [torch.no_grad()]. *)
Variable grad_enabled : bool.

(** [diff_gaussian_rasterization.GaussianRasterizer]: settings and keyword
    arguments to an image and one integer radius per primitive. *)
Variable rasterizer :
  GaussianRasterizationSettings -> RasterizerArgs -> result (tensor * list Z).

(** [utils.sh_utils.eval_sh deg sh dirs]. *)
Variable eval_sh : nat -> tensor -> tensor -> result tensor.

(** The value [math.tan] returns for an argument it accepts. *)
Variable tan_value : scalar -> scalar.

(** The 2-norm of one vector as the tensor library computes it; how the
    squares are accumulated and rounded is the library's business. *)
Variable vector_norm : list scalar -> scalar.

(** Whether the strides of a tensor can express a view of the given shape
    without copying; the memory layout of a tensor is not part of
    [tensor]. *)
Variable view_allowed : tensor -> list nat -> bool.

Definition fadd : scalar -> scalar -> scalar := SFadd prec emax.
Definition fsub : scalar -> scalar -> scalar := SFsub prec emax.
Definition fdiv : scalar -> scalar -> scalar := SFdiv prec emax.

(** The result of a differentiable operation on tensor operands with the
    given [requires_grad] flags: it requires grad when recording is on and
    an operand does; it is then not a leaf, and the graph remembers which
    operands the gradient flows back to. *)
Definition derived (operands : list bool) (sh : list nat)
  (its : list (list scalar)) : tensor :=
  let rg := grad_enabled && existsb (fun b => b) operands in
  {| item_shape := sh; items := its;
     requires_grad := rg; is_leaf := negb rg; retains_grad := false;
     grad_inputs := if rg then operands else [] |}.

(** [torch.zeros_like(t, requires_grad=rg)]: a fresh leaf. *)
Definition torch_zeros_like (t : tensor) (rg : bool) : tensor :=
  {| item_shape := item_shape t;
     items := map (map (fun _ => fzero)) (items t);
     requires_grad := rg; is_leaf := true; retains_grad := false;
     grad_inputs := [] |}.

(** [t + c] for a Python number [c]. *)
Definition add_scalar (t : tensor) (c : scalar) : tensor :=
  derived [requires_grad t] (item_shape t)
          (map (map (fun x => fadd x c)) (items t)).

Definition is_empty_1d (t : tensor) : bool :=
  match item_shape t, items t with
  | [], [] => true
  | _, _ => false
  end.

(** [torch.cat([a, b], dim=0)]: the two tensors must agree on every axis
    but the first; a tensor of shape [(0,)] is skipped. *)
Definition torch_cat (a b : tensor) : result tensor :=
  let operands := [requires_grad a; requires_grad b] in
  if is_empty_1d a then Ok (derived operands (item_shape b) (items b))
  else if is_empty_1d b then Ok (derived operands (item_shape a) (items a))
  else if shape_eqb (item_shape a) (item_shape b)
       then Ok (derived operands (item_shape a) (items a ++ items b))
       else Raise RuntimeError.

(** An element-wise binary operation with broadcasting. *)
Definition broadcast2 (f : scalar -> scalar -> scalar) (a b : tensor)
  : result tensor :=
  let n := Nat.max (length (shape a)) (length (shape b)) in
  let sa := pad n (shape a) in
  let sb := pad n (shape b) in
  match bshape sa sb with
  | Some (d0 :: rest) =>
      let xs := expand sa (d0 :: rest) (flat a) in
      let ys := expand sb (d0 :: rest) (flat b) in
      Ok (derived [requires_grad a; requires_grad b] rest
                  (chunks d0 (numel rest) (map2 f xs ys)))
  | _ => Raise RuntimeError
  end.

Definition tensor_sub : tensor -> tensor -> result tensor := broadcast2 fsub.
Definition tensor_div : tensor -> tensor -> result tensor := broadcast2 fdiv.

(** [t.transpose(1, 2)]. *)
Definition tensor_transpose_1_2 (t : tensor) : result tensor :=
  match item_shape t with
  | a :: b :: rest =>
      Ok (derived [requires_grad t] (b :: a :: rest)
                  (map (transpose_item a b (numel rest)) (items t)))
  | _ => Raise IndexError
  end.

(** [t.view(-1, 3, k)]: the elements in row-major order, regrouped.  The
    call needs the number of elements to be a multiple of [3 * k], and the
    strides of [t] to be able to express the new shape. *)
Definition tensor_view_3 (t : tensor) (k : nat) : result tensor :=
  let n := size0 t * numel (item_shape t) in
  let sz := 3 * k in
  if sz =? 0 then Raise RuntimeError
  else if n mod sz =? 0
       then if view_allowed t [n / sz; 3; k]
            then Ok (derived [requires_grad t] [3; k]
                             (chunks (n / sz) sz (flat t)))
            else Raise RuntimeError
       else Raise RuntimeError.

(** [t.repeat(n, 1)] for a tensor of one or two axes. *)
Definition tensor_repeat_n_1 (t : tensor) (n : nat) : result tensor :=
  match item_shape t with
  | [] => Ok (derived [requires_grad t] [size0 t] (repeat (flat t) n))
  | [w] => Ok (derived [requires_grad t] [w] (concat (repeat (items t) n)))
  | _ => Raise RuntimeError
  end.

(** The 2-norm along axis 1 of one item whose axis-1 extent is [d1] and
    whose remaining axes hold [k] elements: one norm for each of the [k]
    vectors of [d1] elements that run along axis 1. *)
Definition norm_item (d1 k : nat) (it : list scalar) : list scalar :=
  map (fun j =>
         vector_norm (map (fun i => nth (i * k + j) it fzero) (seq 0 d1)))
      (seq 0 k).

(** [t.norm(dim=1, keepdim=True)]. *)
Definition tensor_norm_dim1 (t : tensor) : result tensor :=
  match item_shape t with
  | d1 :: rest =>
      Ok (derived [requires_grad t] (1 :: rest)
                  (map (norm_item d1 (numel rest)) (items t)))
  | [] => Raise IndexError
  end.

(** [torch.clamp_min(t, lo)]. *)
Definition torch_clamp_min (t : tensor) (lo : scalar) : tensor :=
  derived [requires_grad t] (item_shape t)
          (map (map (fclamp_min lo)) (items t)).

(** [t.retain_grad()]: an error on a tensor that does not require grad,
    nothing to do on a leaf, and otherwise the flag is set on [t]. *)
Definition retain_grad (t : tensor) : M tensor :=
  if requires_grad t then
    emit (EvRetainGrad true) ;;;
    ret (if is_leaf t then t
         else {| item_shape := item_shape t; items := items t;
                 requires_grad := requires_grad t; is_leaf := is_leaf t;
                 retains_grad := true; grad_inputs := grad_inputs t |})
  else
    emit (EvRetainGrad false) ;;; lift (Raise RuntimeError).

(** The call [eval_sh(deg, sh, dirs)]. *)
Definition call_eval_sh (deg : nat) (sh dirs : tensor) : M tensor :=
  emit (EvEvalSH deg sh dirs) ;;; lift (eval_sh deg sh dirs).

(** The call [rasterizer(means3D = ..., ...)]. *)
Definition call_rasterizer (s : GaussianRasterizationSettings)
  (a : RasterizerArgs) : M (tensor * list Z) :=
  emit (EvRasterize s a) ;;; lift (rasterizer s a).

(** [math.tan(x)]: a [ValueError] on an infinity, a value otherwise (a NaN
    is answered by a NaN). *)
Definition math_tan (x : scalar) : result scalar :=
  match x with
  | S754_infinity _ => Raise ValueError
  | _ => Ok (tan_value x)
  end.

(** [radii > 0] on an integer tensor. *)
Definition gt_zero (rs : list Z) : list bool := map (fun r => (0 <? r)%Z) rs.

(** ** [render] *)

(** Lines 43-56: the rasterization configuration. *)
Definition raster_settings_for (viewpoint_camera : Camera)
  (pc : GaussianModel) (pipe : PipelineParams) (bg_color : tensor)
  (scaling_modifier : scalar) (tanfovx tanfovy : scalar)
  : GaussianRasterizationSettings :=
  {| rs_image_height := image_height viewpoint_camera;
     rs_image_width := image_width viewpoint_camera;
     rs_tanfovx := tanfovx;
     rs_tanfovy := tanfovy;
     rs_bg := bg_color;
     rs_scale_modifier := scaling_modifier;
     rs_viewmatrix := world_view_transform viewpoint_camera;
     rs_projmatrix := full_proj_transform viewpoint_camera;
     rs_sh_degree := active_sh_degree pc;
     rs_campos := camera_center viewpoint_camera;
     rs_prefiltered := false;
     rs_debug := debug pipe |}.

(** Lines 69-78: [(scales, rotations, cov3D_precomp)]. *)
Definition geometry_inputs (pc prePC : GaussianModel)
  (pipe : PipelineParams) (scaling_modifier : scalar)
  : M (option tensor * option tensor * option tensor) :=
  if compute_cov3D_python pipe then
    let preCov := get_covariance prePC scaling_modifier in
    let pcCov := get_covariance pc scaling_modifier in
    cov3D_precomp <- lift (torch_cat pcCov preCov) ;;
    ret (None, None, Some cov3D_precomp)
  else
    scales <- lift (torch_cat (get_scaling pc) (get_scaling prePC)) ;;
    rotations <- lift (torch_cat (get_rotation pc) (get_rotation prePC)) ;;
    ret (Some scales, Some rotations, None).

(** Lines 82-105: [(shs, colors_precomp)]. *)
Definition color_inputs (viewpoint_camera : Camera)
  (pc prePC : GaussianModel) (pipe : PipelineParams)
  (override_color : option tensor) : M (option tensor * option tensor) :=
  match override_color with
  | None =>
      if convert_SHs_python pipe then
        pcT <- lift (tensor_transpose_1_2 (get_features pc)) ;;
        pcShs <- lift (tensor_view_3 pcT ((max_sh_degree pc + 1) ^ 2)) ;;
        preT <- lift (tensor_transpose_1_2 (get_features prePC)) ;;
        preShs <- lift (tensor_view_3 preT ((max_sh_degree prePC + 1) ^ 2)) ;;
        shs_view <- lift (torch_cat pcShs preShs) ;;
        pc_center <-
          lift (tensor_repeat_n_1 (camera_center viewpoint_camera)
                                  (size0 (get_features pc))) ;;
        pc_dir_pp <- lift (tensor_sub (get_xyz pc) pc_center) ;;
        pre_center <-
          lift (tensor_repeat_n_1 (camera_center viewpoint_camera)
                                  (size0 (get_features prePC))) ;;
        pre_dir_pp <- lift (tensor_sub (get_xyz prePC) pre_center) ;;
        dir_pp <- lift (torch_cat pc_dir_pp pre_dir_pp) ;;
        dir_norm <- lift (tensor_norm_dim1 dir_pp) ;;
        dir_pp_normalized <- lift (tensor_div dir_pp dir_norm) ;;
        sh2rgb <-
          call_eval_sh (active_sh_degree pc) shs_view dir_pp_normalized ;;
        let colors_precomp :=
          torch_clamp_min (add_scalar sh2rgb (fhalf prec emax)) fzero in
        ret (None, Some colors_precomp)
      else
        let pcShs := get_features pc in
        let preShs := get_features prePC in
        shs <- lift (torch_cat pcShs preShs) ;;
        ret (Some shs, None)
  | Some c =>
      let colors_precomp := c in
      ret (None, Some colors_precomp)
  end.

Definition render (viewpoint_camera : Camera) (pc prePC : GaussianModel)
  (pipe : PipelineParams) (bg_color : tensor) (scaling_modifier : scalar)
  (override_color : option tensor) : M RenderOutput :=
  let screenspace_points :=
    add_scalar (torch_zeros_like (get_xyz pc) true) fzero in
  screenspace_points <-
    try_except (retain_grad screenspace_points) (ret screenspace_points) ;;
  let screenspace_points_pre :=
    add_scalar (torch_zeros_like (get_xyz prePC) false) fzero in
  all_xyz <- lift (torch_cat (_xyz pc) (_xyz prePC)) ;;
  all_opacity <- lift (torch_cat (_opacity pc) (_opacity prePC)) ;;
  screenspace_points_all <-
    lift (torch_cat screenspace_points screenspace_points_pre) ;;
  tanfovx <-
    lift (math_tan (py_mul (FoVx viewpoint_camera)
                           (fhalf py_prec py_emax))) ;;
  tanfovy <-
    lift (math_tan (py_mul (FoVy viewpoint_camera)
                           (fhalf py_prec py_emax))) ;;
  let raster_settings :=
    raster_settings_for viewpoint_camera pc pipe bg_color scaling_modifier
                        tanfovx tanfovy in
  let means3D_ := all_xyz in
  let means2D_ := screenspace_points_all in
  let opacity := all_opacity in
  ' (scales_, rotations_, cov3D_precomp_) <-
    geometry_inputs pc prePC pipe scaling_modifier ;;
  ' (shs_, colors_precomp_) <-
    color_inputs viewpoint_camera pc prePC pipe override_color ;;
  ' (rendered_image, radii_) <-
    call_rasterizer raster_settings
      {| means3D := means3D_;
         means2D := means2D_;
         shs := shs_;
         colors_precomp := colors_precomp_;
         opacities := opacity;
         scales := scales_;
         rotations := rotations_;
         cov3D_precomp := cov3D_precomp_ |} ;;
  ret {| rendered := rendered_image;
         viewspace_points := screenspace_points;
         visibility_filter := gt_zero radii_;
         radii := radii_ |}.

(** ** Per-primitive closed forms *)

(** What lines 91-94 make of one position row: the offset from the camera
    position, coordinate by coordinate, each divided by the norm of the
    offset. *)
Definition unit_direction (campos row : list scalar) : list scalar :=
  let d := map2 fsub row campos in
  map (fun x => fdiv x (vector_norm d)) d.

(** What line 86 makes of one primitive's [K x 3] block of features: the
    [3 x K] block, channel by channel. *)
Definition sh_item (k : nat) (it : list scalar) : list scalar :=
  transpose_item k 3 1 it.

(** What line 98 makes of the evaluated colours. *)
Definition shade (sh2rgb : tensor) : tensor :=
  torch_clamp_min (add_scalar sh2rgb (fhalf prec emax)) fzero.

(** What [torch.cat] returns for two tensors with the same item shape. *)
Definition cat_rows (a b : tensor) : tensor :=
  derived [requires_grad a; requires_grad b] (item_shape a)
          (items a ++ items b).

(** The dynamic cloud's placeholder after lines 26-30: zeros in the shape
    of [t]; tracked, non-leaf and retaining its gradient when recording is
    on, an ordinary constant otherwise. *)
Definition dynamic_placeholder (t : tensor) : tensor :=
  {| item_shape := item_shape t; items := zero_rows t;
     requires_grad := grad_enabled; is_leaf := negb grad_enabled;
     retains_grad := grad_enabled;
     grad_inputs := if grad_enabled then [true] else [] |}.

(** The secondary cloud's placeholder (line 32). *)
Definition secondary_placeholder (t : tensor) : tensor :=
  {| item_shape := item_shape t; items := zero_rows t;
     requires_grad := false; is_leaf := true; retains_grad := false;
     grad_inputs := [] |}.

(** The settings that lines 40-56 build when [math.tan] accepts both half
    angles. *)
Definition settings_of (cam : Camera) (pc : GaussianModel)
  (pipe : PipelineParams) (bg : tensor) (scaling_modifier : scalar)
  : GaussianRasterizationSettings :=
  raster_settings_for cam pc pipe bg scaling_modifier
    (tan_value (py_mul (FoVx cam) (fhalf py_prec py_emax)))
    (tan_value (py_mul (FoVy cam) (fhalf py_prec py_emax))).

(** The keyword arguments that lines 34-37 and 63-116 assemble when every
    concatenation goes through, for given colour inputs. *)
Definition merged_args (pc prePC : GaussianModel) (pipe : PipelineParams)
  (scaling_modifier : scalar) (shs_ colors_precomp_ : option tensor)
  : RasterizerArgs :=
  {| means3D := cat_rows (_xyz pc) (_xyz prePC);
     means2D := cat_rows (dynamic_placeholder (get_xyz pc))
                         (secondary_placeholder (get_xyz prePC));
     shs := shs_;
     colors_precomp := colors_precomp_;
     opacities := cat_rows (_opacity pc) (_opacity prePC);
     scales := if compute_cov3D_python pipe then None
               else Some (cat_rows (get_scaling pc) (get_scaling prePC));
     rotations := if compute_cov3D_python pipe then None
                  else Some (cat_rows (get_rotation pc) (get_rotation prePC));
     cov3D_precomp :=
       if compute_cov3D_python pipe
       then Some (cat_rows (get_covariance pc scaling_modifier)
                           (get_covariance prePC scaling_modifier))
       else None |}.

(** Lines 108-123 once the arguments are known: the rasterizer's answer,
    packaged with the dynamic cloud's placeholder. *)
Definition outcome (pc : GaussianModel) (s : GaussianRasterizationSettings)
  (a : RasterizerArgs) : result RenderOutput :=
  match rasterizer s a with
  | Ok (rendered_image, radii_) =>
      Ok {| rendered := rendered_image;
            viewspace_points := dynamic_placeholder (get_xyz pc);
            visibility_filter := gt_zero radii_;
            radii := radii_ |}
  | Raise e => Raise e
  end.

(** ** What the theorems ask of the collaborators *)

(** Asked for degree [d] on [n] primitives with [k] coefficients per
    channel and [n] directions, [eval_sh] returns [n] rows. *)
Definition eval_sh_returns (d k : nat) : Prop :=
  forall S v : tensor,
    item_shape S = [3; k] -> item_shape v = [3] -> size0 S = size0 v ->
    exists e, eval_sh d S v = Ok e /\ size0 e = size0 S.

(** A view of a tensor in its own shape is always expressible. *)
Definition view_keeps_shape : Prop :=
  forall t : tensor, view_allowed t (shape t) = true.

(* ===================================================================== *)
(** * Lists cut into pieces *)
(* ===================================================================== *)

Lemma chunks_length (n k : nat) (l : list scalar) :
  length (chunks n k l) = n.
Proof.
  revert l; induction n as [|n IH]; intro l; simpl; [reflexivity|].
  now rewrite IH.
Qed.

Lemma chunks_concat (k : nat) (its : list (list scalar)) :
  Forall (fun it => length it = k) its ->
  chunks (length its) k (concat its) = its.
Proof.
  induction 1 as [|it its Hit _ IH]; simpl; [reflexivity|].
  rewrite firstn_app, skipn_app.
  rewrite (firstn_all2 it) by lia. rewrite (skipn_all2 it) by lia.
  replace (k - length it) with 0 by lia.
  simpl. rewrite app_nil_r. now rewrite IH.
Qed.

Lemma chunks_Forall_length (n k : nat) (l : list scalar) :
  length l = n * k ->
  Forall (fun c => length c = k) (chunks n k l).
Proof.
  revert l; induction n as [|n IH]; intros l Hl; simpl; constructor.
  - rewrite length_firstn. simpl in Hl. lia.
  - apply IH. rewrite length_skipn. simpl in Hl. lia.
Qed.

Lemma concat_chunks (n k : nat) (l : list scalar) :
  length l = n * k -> concat (chunks n k l) = l.
Proof.
  revert l; induction n as [|n IH]; intros l Hl; simpl.
  - destruct l; [reflexivity | discriminate].
  - rewrite IH.
    + apply firstn_skipn.
    + rewrite length_skipn. simpl in Hl. lia.
Qed.

Lemma length_concat_rows (k : nat) (its : list (list scalar)) :
  Forall (fun it => length it = k) its ->
  length (concat its) = length its * k.
Proof.
  induction 1 as [|it its Hit _ IH]; simpl; [reflexivity|].
  rewrite length_app, IH, Hit. reflexivity.
Qed.

Lemma rectangular_Forall (t : tensor) :
  rectangular t = true ->
  Forall (fun it => length it = numel (item_shape t)) (items t).
Proof.
  unfold rectangular. rewrite forallb_forall, Forall_forall.
  intros H it Hin. apply Nat.eqb_eq. now apply H.
Qed.

Lemma has_shape_inv (t : tensor) (n : nat) (s : list nat) :
  has_shape t n s = true ->
  size0 t = n /\ item_shape t = s /\
  Forall (fun it => length it = numel s) (items t).
Proof.
  unfold has_shape, shape_eqb. intro H.
  apply andb_prop in H as [H Hr]. apply andb_prop in H as [Hn Hs].
  apply Nat.eqb_eq in Hn.
  destruct (list_eq_dec Nat.eq_dec (item_shape t) s) as [E|]; [|discriminate].
  repeat split; try assumption.
  rewrite <- E. now apply rectangular_Forall.
Qed.

(* ===================================================================== *)
(** * Broadcasting on rows *)
(* ===================================================================== *)

Lemma expand_same (s : list nat) (d : list scalar) :
  length d = numel s -> expand s s d = d.
Proof.
  revert d; induction s as [|a s IH]; intros d Hd; simpl; [reflexivity|].
  rewrite Nat.eqb_refl.
  assert (Hc : Forall (fun c => length c = numel s) (chunks a (numel s) d))
    by (apply chunks_Forall_length; exact Hd).
  rewrite (map_ext_in (expand s s) (fun c => c)).
  - rewrite map_id. now apply concat_chunks.
  - intros c Hin. apply IH. rewrite Forall_forall in Hc. now apply Hc.
Qed.

Lemma expand_outer (n : nat) (s1 s2 : list nat) (d : list scalar) :
  expand (n :: s1) (n :: s2) d
  = concat (map (expand s1 s2) (chunks n (numel s1) d)).
Proof. simpl. now rewrite Nat.eqb_refl. Qed.

Lemma expand_column (w : nat) (c : list scalar) :
  length c = 1 -> expand [1] [w] c = concat (repeat c w).
Proof.
  intro Hc. destruct c as [|x [|y c]]; try discriminate.
  cbn [expand map chunks firstn skipn numel fold_right].
  destruct (1 =? w) eqn:E.
  - apply Nat.eqb_eq in E. subst w. reflexivity.
  - clear E. induction w as [|w IH]; [reflexivity|].
    simpl in *. now rewrite IH.
Qed.

Lemma map2_app (f : scalar -> scalar -> scalar) (a b a' b' : list scalar) :
  length a = length b ->
  map2 f (a ++ a') (b ++ b') = map2 f a b ++ map2 f a' b'.
Proof.
  revert b; induction a as [|x a IH]; intros [|y b] H; try discriminate.
  - reflexivity.
  - unfold map2 in *. simpl. f_equal. apply IH. simpl in H. lia.
Qed.

Lemma length_map2 (f : scalar -> scalar -> scalar) (a b : list scalar) :
  length (map2 f a b) = Nat.min (length a) (length b).
Proof. unfold map2. now rewrite length_map, length_combine. Qed.

Lemma chunks_map2 (f : scalar -> scalar -> scalar) (w : nat)
  (A B : list (list scalar)) :
  Forall (fun r => length r = w) A ->
  Forall (fun r => length r = w) B ->
  length A = length B ->
  chunks (length A) w (map2 f (concat A) (concat B))
  = map (fun p => map2 f (fst p) (snd p)) (combine A B).
Proof.
  intros HA; revert B; induction HA as [|a A Ha _ IH]; intros B HB Hlen.
  - reflexivity.
  - destruct B as [|b B]; [discriminate|].
    inversion HB as [|? ? Hb HB']; subst. simpl in Hlen.
    simpl. rewrite map2_app by congruence.
    assert (Hm : length (map2 f a b) = length a)
      by (rewrite length_map2; lia).
    rewrite firstn_app, skipn_app.
    rewrite (firstn_all2 (map2 f a b)) by lia.
    rewrite (skipn_all2 (map2 f a b)) by lia.
    replace (length a - length (map2 f a b)) with 0 by lia.
    simpl. rewrite app_nil_r. f_equal. apply IH; [assumption | lia].
Qed.

Lemma map2_column (f : scalar -> scalar -> scalar) (r : list scalar)
  (y : scalar) :
  map2 f r (concat (repeat [y] (length r))) = map (fun x => f x y) r.
Proof.
  induction r as [|x r IH]; simpl; [reflexivity|].
  unfold map2 in *. simpl. now rewrite IH.
Qed.

Lemma combine_repeat_rows (f : scalar -> scalar -> scalar)
  (rows : list (list scalar)) (c : list scalar) :
  map (fun p => map2 f (fst p) (snd p)) (combine rows (repeat c (length rows)))
  = map (fun r => map2 f r c) rows.
Proof.
  induction rows as [|r rows IH]; simpl; [reflexivity|]. now rewrite IH.
Qed.

(** Two tensors of the same shape [n x w]: the operation goes row by row. *)
Lemma broadcast2_rows (f : scalar -> scalar -> scalar) (a b : tensor)
  (w : nat) :
  item_shape a = [w] -> item_shape b = [w] -> size0 a = size0 b ->
  Forall (fun r => length r = w) (items a) ->
  Forall (fun r => length r = w) (items b) ->
  broadcast2 f a b
  = Ok (derived [requires_grad a; requires_grad b] [w]
          (map (fun p => map2 f (fst p) (snd p))
               (combine (items a) (items b)))).
Proof.
  intros Ha Hb Hn Fa Fb. unfold broadcast2, shape. rewrite Ha, Hb, <- Hn.
  cbn [length Nat.max pad Nat.sub repeat app bshape].
  rewrite !Nat.eqb_refl.
  assert (La : length (flat a) = numel [size0 a; w]).
  { unfold flat. rewrite (length_concat_rows _ _ Fa). unfold size0. simpl. lia. }
  assert (Lb : length (flat b) = numel [size0 a; w]).
  { unfold flat. rewrite (length_concat_rows _ _ Fb). unfold size0 in *. simpl. lia. }
  rewrite (expand_same _ _ La), (expand_same _ _ Lb).
  do 2 f_equal. unfold flat, size0. simpl. rewrite Nat.mul_1_r.
  apply chunks_map2; assumption.
Qed.

(** A tensor [n x w] against a column [n x 1]: every element of a row
    meets the single element of the column's row. *)
Lemma broadcast2_column (f : scalar -> scalar -> scalar) (a b : tensor)
  (w : nat) :
  item_shape a = [w] -> item_shape b = [1] -> size0 a = size0 b ->
  Forall (fun r => length r = w) (items a) ->
  Forall (fun r => length r = 1) (items b) ->
  broadcast2 f a b
  = Ok (derived [requires_grad a; requires_grad b] [w]
          (map (fun p => map (fun x => f x (hd fzero (snd p))) (fst p))
               (combine (items a) (items b)))).
Proof.
  intros Ha Hb Hn Fa Fb. unfold broadcast2, shape. rewrite Ha, Hb, <- Hn.
  cbn [length Nat.max pad Nat.sub repeat app bshape].
  rewrite !Nat.eqb_refl.
  match goal with |- context [if w =? 1 then ?x else ?y] =>
    replace (if w =? 1 then x else y) with (Some [w])
  end.
  2:{ destruct (w =? 1) eqn:E1; [|reflexivity].
      apply Nat.eqb_eq in E1. now subst w. }
  assert (La : length (flat a) = numel [size0 a; w]).
  { unfold flat. rewrite (length_concat_rows _ _ Fa). unfold size0. simpl. lia. }
  rewrite (expand_same _ _ La).
  do 2 f_equal.
  assert (Eb : expand [size0 a; 1] [size0 a; w] (flat b)
               = concat (map (fun c => concat (repeat c w)) (items b))).
  { rewrite expand_outer. f_equal.
    change (numel [1]) with 1.
    unfold flat. rewrite Hn. unfold size0.
    rewrite (chunks_concat _ _ Fb).
    apply map_ext_in. intros c Hin. apply expand_column.
    rewrite Forall_forall in Fb. now apply Fb. }
  rewrite Eb. unfold flat, size0. simpl numel. rewrite Nat.mul_1_r.
  rewrite chunks_map2.
  - clear Eb La. revert Hn Fa Fb. unfold size0.
    generalize (items a) as A, (items b) as B.
    induction A as [|r A IH]; intros B Hn Fa Fb; [reflexivity|].
    destruct B as [|c B]; [discriminate|].
    inversion Fa as [|? ? Hr Fa']; inversion Fb as [|? ? Hc Fb']; subst.
    simpl. f_equal.
    + destruct c as [|y [|z c]]; try discriminate. simpl hd.
      apply map2_column.
    + apply IH; [simpl in Hn; lia | assumption | assumption].
  - assumption.
  - rewrite Forall_forall. intros r Hin. apply in_map_iff in Hin as [c [<- Hc]].
    rewrite Forall_forall in Fb. specialize (Fb c Hc).
    destruct c as [|y [|z c]]; try discriminate.
    clear. induction w; simpl; [reflexivity | now rewrite IHw].
  - rewrite length_map. exact Hn.
Qed.

(* ===================================================================== *)
(** * The tensor operations on well-shaped arguments *)
(* ===================================================================== *)

Lemma torch_cat_rows (a b : tensor) (s : list nat) :
  item_shape a = s -> item_shape b = s -> s <> [] ->
  torch_cat a b
  = Ok (derived [requires_grad a; requires_grad b] s (items a ++ items b)).
Proof.
  intros Ha Hb Hs. unfold torch_cat, is_empty_1d, shape_eqb.
  rewrite Ha, Hb. destruct s as [|x s]; [contradiction|].
  destruct (list_eq_dec Nat.eq_dec (x :: s) (x :: s)); [reflexivity|].
  contradiction.
Qed.

Lemma length_flat_map_seq (g : nat -> nat -> list scalar) (a : nat)
  (l : list nat) :
  length (flat_map (fun j => map (g j) (seq 0 a)) l) = length l * a.
Proof.
  induction l as [|j l IH]; simpl; [reflexivity|].
  now rewrite length_app, length_map, length_seq, IH.
Qed.

Lemma length_transpose_item (a b k : nat) (d : list scalar) :
  length d = a * b * k ->
  length (transpose_item a b k d) = b * a * k.
Proof.
  intro Hd. unfold transpose_item.
  pose proof (chunks_Forall_length (a * b) k d Hd) as Hc.
  rewrite (length_concat_rows k).
  - now rewrite length_flat_map_seq, length_seq.
  - rewrite Forall_forall. intros r Hin.
    apply in_flat_map in Hin as [j [Hj Hin]].
    apply in_map_iff in Hin as [i [<- Hi]].
    apply in_seq in Hj, Hi.
    rewrite Forall_forall in Hc. apply Hc. apply nth_In.
    rewrite chunks_length. nia.
Qed.

Lemma tensor_transpose_features (t : tensor) (k : nat) :
  item_shape t = [k; 3] ->
  tensor_transpose_1_2 t
  = Ok (derived [requires_grad t] [3; k] (map (sh_item k) (items t))).
Proof. intro H. unfold tensor_transpose_1_2. now rewrite H. Qed.

Lemma tensor_view_3_same (t : tensor) (k : nat) :
  view_keeps_shape ->
  item_shape t = [3; k] -> k <> 0 ->
  Forall (fun it => length it = 3 * k) (items t) ->
  tensor_view_3 t k = Ok (derived [requires_grad t] [3; k] (items t)).
Proof.
  intros Hv Hs Hk F. unfold tensor_view_3. rewrite Hs.
  replace (numel [3; k]) with (3 * k) by (simpl; lia).
  destruct (3 * k =? 0) eqn:E; [apply Nat.eqb_eq in E; lia|].
  rewrite Nat.Div0.mod_mul, Nat.eqb_refl.
  rewrite Nat.div_mul by lia.
  rewrite <- Hs. fold (shape t). rewrite (Hv t).
  unfold flat, size0. rewrite Hs. now rewrite chunks_concat.
Qed.

Lemma tensor_repeat_vector (t : tensor) (n : nat) :
  item_shape t = [] ->
  tensor_repeat_n_1 t n
  = Ok (derived [requires_grad t] [size0 t] (repeat (flat t) n)).
Proof. intro H. unfold tensor_repeat_n_1. now rewrite H. Qed.

Lemma tensor_norm_rows (t : tensor) (w : nat) :
  item_shape t = [w] ->
  tensor_norm_dim1 t
  = Ok (derived [requires_grad t] [1] (map (norm_item w 1) (items t))).
Proof. intro H. unfold tensor_norm_dim1. now rewrite H. Qed.

Lemma length_norm_item (d1 k : nat) (it : list scalar) :
  length (norm_item d1 k it) = k.
Proof. unfold norm_item. now rewrite length_map, length_seq. Qed.

Lemma row_as_column (it : list scalar) :
  map (fun i => nth (i * 1 + 0) it fzero) (seq 0 (length it)) = it.
Proof.
  induction it as [|x it IH]; simpl; [reflexivity|]. f_equal.
  rewrite <- seq_shift, map_map. rewrite <- IH at 2.
  apply map_ext. intro i. reflexivity.
Qed.

(** On a row, the norm along axis 1 is the norm of the row. *)
Lemma norm_item_row (it : list scalar) :
  norm_item (length it) 1 it = [vector_norm it].
Proof. unfold norm_item. simpl. now rewrite row_as_column. Qed.

(** Lines 91-92 on one cloud: the camera position is subtracted from
    every row. *)
Lemma offsets_rows (xyz center : tensor) (c : list scalar) :
  has_shape xyz (size0 xyz) [3] = true ->
  item_shape center = [3] -> length c = 3 ->
  items center = repeat c (size0 xyz) ->
  tensor_sub xyz center
  = Ok (derived [requires_grad xyz; requires_grad center] [3]
          (map (fun r => map2 fsub r c) (items xyz))).
Proof.
  intros Hx Hs Hc Hi.
  apply has_shape_inv in Hx as [_ [Hxs Fx]].
  unfold tensor_sub.
  rewrite (broadcast2_rows fsub xyz center 3).
  - do 2 f_equal. rewrite Hi. apply combine_repeat_rows.
  - exact Hxs.
  - exact Hs.
  - unfold size0 at 2. rewrite Hi. now rewrite repeat_length.
  - exact Fx.
  - rewrite Hi. apply Forall_forall. intros r Hin.
    apply repeat_spec in Hin. now subst r.
Qed.

(* ===================================================================== *)
(** * The stages of [render] on well-shaped clouds *)
(* ===================================================================== *)

Lemma cloud_ok_inv (sm : scalar) (c : GaussianModel) :
  cloud_ok sm c = true ->
  let n := size0 (get_xyz c) in
  has_shape (get_xyz c) n [3] = true /\
  has_shape (_xyz c) n [3] = true /\
  has_shape (_opacity c) n [1] = true /\
  has_shape (get_scaling c) n [3] = true /\
  has_shape (get_rotation c) n [4] = true /\
  has_shape (get_features c) n [sh_coeffs c; 3] = true /\
  has_shape (get_covariance c sm) n [6] = true.
Proof.
  unfold cloud_ok. intro H. cbv zeta in *.
  do 6 (apply andb_prop in H as [H ?]). repeat split; assumption.
Qed.

Lemma zeros_plus_zero (t : tensor) (rg : bool) :
  items (add_scalar (torch_zeros_like t rg) fzero) = zero_rows t.
Proof.
  unfold add_scalar, torch_zeros_like, zero_rows. simpl.
  rewrite map_map. apply map_ext. intro r. rewrite map_map. reflexivity.
Qed.

(** Lines 26-30. *)
Lemma retain_placeholder (t : tensor) (tr : list event) :
  let screenspace_points := add_scalar (torch_zeros_like t true) fzero in
  try_except (retain_grad screenspace_points) (ret screenspace_points) tr
  = (tr ++ [EvRetainGrad grad_enabled], Ok (dynamic_placeholder t)).
Proof.
  intro sp. pose proof (zeros_plus_zero t true) as Hz. fold sp in Hz.
  unfold try_except, retain_grad, dynamic_placeholder.
  unfold sp in *. unfold add_scalar, derived in *. simpl in *.
  destruct grad_enabled; simpl; unfold bind, emit, ret, lift; simpl;
    now rewrite Hz.
Qed.

(** Line 32. *)
Lemma untracked_placeholder (t : tensor) :
  add_scalar (torch_zeros_like t false) fzero = secondary_placeholder t.
Proof.
  pose proof (zeros_plus_zero t false) as Hz.
  unfold add_scalar, derived, secondary_placeholder in *. simpl in *.
  rewrite Hz, andb_false_r. reflexivity.
Qed.

Lemma cat_shaped (a b : tensor) (n m : nat) (s : list nat) :
  has_shape a n s = true -> has_shape b m s = true -> s <> [] ->
  torch_cat a b = Ok (cat_rows a b).
Proof.
  intros Ha Hb Hs.
  apply has_shape_inv in Ha as [_ [Ha _]].
  apply has_shape_inv in Hb as [_ [Hb _]].
  unfold cat_rows. rewrite Ha. now apply torch_cat_rows.
Qed.

(** Lines 69-78. *)
Lemma geometry_inputs_run (pc prePC : GaussianModel) (pipe : PipelineParams)
  (sm : scalar) (tr : list event) :
  cloud_ok sm pc = true -> cloud_ok sm prePC = true ->
  geometry_inputs pc prePC pipe sm tr
  = (tr,
     Ok (if compute_cov3D_python pipe
         then (None, None,
               Some (cat_rows (get_covariance pc sm) (get_covariance prePC sm)))
         else (Some (cat_rows (get_scaling pc) (get_scaling prePC)),
               Some (cat_rows (get_rotation pc) (get_rotation prePC)),
               None))).
Proof.
  intros H1 H2.
  apply cloud_ok_inv in H1 as (_ & _ & _ & Hs1 & Hr1 & _ & Hc1).
  apply cloud_ok_inv in H2 as (_ & _ & _ & Hs2 & Hr2 & _ & Hc2).
  unfold geometry_inputs.
  destruct (compute_cov3D_python pipe).
  - rewrite (cat_shaped _ _ _ _ _ Hc1 Hc2) by discriminate. reflexivity.
  - rewrite (cat_shaped _ _ _ _ _ Hs1 Hs2) by discriminate.
    rewrite (cat_shaped _ _ _ _ _ Hr1 Hr2) by discriminate. reflexivity.
Qed.

(** Lines 104-105. *)
Lemma color_inputs_override (cam : Camera) (pc prePC : GaussianModel)
  (pipe : PipelineParams) (c : tensor) (tr : list event) :
  color_inputs cam pc prePC pipe (Some c) tr = (tr, Ok (None, Some c)).
Proof. reflexivity. Qed.

(** Lines 99-102. *)
Lemma color_inputs_raw (cam : Camera) (pc prePC : GaussianModel)
  (pipe : PipelineParams) (sm : scalar) (tr : list event) :
  cloud_ok sm pc = true -> cloud_ok sm prePC = true ->
  max_sh_degree pc = max_sh_degree prePC ->
  convert_SHs_python pipe = false ->
  color_inputs cam pc prePC pipe None tr
  = (tr, Ok (Some (cat_rows (get_features pc) (get_features prePC)), None)).
Proof.
  intros H1 H2 Hk Hc.
  apply cloud_ok_inv in H1 as (_ & _ & _ & _ & _ & Hf1 & _).
  apply cloud_ok_inv in H2 as (_ & _ & _ & _ & _ & Hf2 & _).
  unfold color_inputs. rewrite Hc.
  unfold sh_coeffs in *. rewrite <- Hk in Hf2.
  rewrite (cat_shaped _ _ _ _ _ Hf1 Hf2) by discriminate. reflexivity.
Qed.

Lemma sh_item_rows (k : nat) (its : list (list scalar)) :
  Forall (fun it => length it = numel [k; 3]) its ->
  Forall (fun it => length it = 3 * k) (map (sh_item k) its).
Proof.
  intro F. rewrite Forall_forall in *. intros r Hin.
  apply in_map_iff in Hin as [it [<- Hit]]. unfold sh_item.
  rewrite length_transpose_item; [lia|].
  rewrite (F it Hit). simpl. lia.
Qed.

Lemma unit_direction_rows (c : list scalar) (rows : list (list scalar)) :
  Forall (fun r => length r = 3) rows -> length c = 3 ->
  map (fun p => map (fun x => fdiv x (hd fzero (snd p))) (fst p))
      (combine (map (fun r => map2 fsub r c) rows)
               (map (norm_item 3 1) (map (fun r => map2 fsub r c) rows)))
  = map (unit_direction c) rows.
Proof.
  intros F Hc. induction F as [|r rows Hr _ IH]; [reflexivity|].
  cbn [map combine fst snd]. rewrite IH. f_equal.
  unfold unit_direction. cbv zeta.
  assert (Hd : length (map2 fsub r c) = 3)
    by (rewrite length_map2; lia).
  pose proof (norm_item_row (map2 fsub r c)) as Hn. rewrite Hd in Hn.
  rewrite Hn. reflexivity.
Qed.

(** Lines 85-98. *)
Lemma color_inputs_eval (cam : Camera) (pc prePC : GaussianModel)
  (pipe : PipelineParams) (sm : scalar) :
  cloud_ok sm pc = true -> cloud_ok sm prePC = true ->
  has_shape (camera_center cam) 3 [] = true ->
  view_keeps_shape ->
  max_sh_degree pc = max_sh_degree prePC ->
  convert_SHs_python pipe = true ->
  exists S v : tensor,
    (forall tr,
       color_inputs cam pc prePC pipe None tr
       = (tr ++ [EvEvalSH (active_sh_degree pc) S v],
          match eval_sh (active_sh_degree pc) S v with
          | Ok e => Ok (None, Some (shade e))
          | Raise x => Raise x
          end)) /\
    item_shape S = [3; sh_coeffs pc] /\
    items S = map (sh_item (sh_coeffs pc)) (items (get_features pc))
              ++ map (sh_item (sh_coeffs prePC)) (items (get_features prePC)) /\
    item_shape v = [3] /\
    items v = map (unit_direction (flat (camera_center cam)))
                  (items (get_xyz pc) ++ items (get_xyz prePC)).
Proof.
  intros H1 H2 Hcam Hview Hk Hc.
  apply cloud_ok_inv in H1 as (Hx1 & _ & _ & _ & _ & Hf1 & _).
  apply cloud_ok_inv in H2 as (Hx2 & _ & _ & _ & _ & Hf2 & _).
  assert (Hcl : length (flat (camera_center cam)) = 3).
  { destruct (has_shape_inv _ _ _ Hcam) as (Hn & _ & F).
    unfold flat. rewrite (length_concat_rows 1 _ F).
    unfold size0 in Hn. lia. }
  destruct (has_shape_inv _ _ _ Hx1) as (_ & _ & F1).
  destruct (has_shape_inv _ _ _ Hx2) as (_ & _ & F2).
  destruct (has_shape_inv _ _ _ Hf1) as (Hfn1 & Hfs1 & Ff1).
  destruct (has_shape_inv _ _ _ Hf2) as (Hfn2 & Hfs2 & Ff2).
  destruct (has_shape_inv _ _ _ Hcam) as (Hcn & Hcs & Fc).
  assert (Hk' : sh_coeffs prePC = sh_coeffs pc)
    by (unfold sh_coeffs; now rewrite Hk).
  assert (Hnz : sh_coeffs pc <> 0)
    by (unfold sh_coeffs; apply Nat.pow_nonzero; lia).
  do 2 eexists. split.
  - intro tr. unfold color_inputs. rewrite Hc.
    fold (sh_coeffs pc). fold (sh_coeffs prePC).
    rewrite (tensor_transpose_features _ _ Hfs1).
    rewrite (tensor_transpose_features _ _ Hfs2).
    unfold bind at 1. unfold lift at 1.
    rewrite tensor_view_3_same;
      [| assumption | reflexivity | assumption
       | apply sh_item_rows; assumption].
    unfold bind at 1. unfold lift at 1.
    unfold bind at 1. unfold lift at 1.
    rewrite tensor_view_3_same;
      [| assumption | reflexivity | lia | apply sh_item_rows; assumption].
    unfold bind at 1. unfold lift at 1.
    rewrite (torch_cat_rows _ _ [3; sh_coeffs pc]);
      [| reflexivity | simpl; now rewrite Hk' | discriminate].
    unfold bind at 1. unfold lift at 1.
    rewrite (tensor_repeat_vector _ _ Hcs).
    unfold bind at 1. unfold lift at 1.
    rewrite Hcn, Hfn1.
    rewrite (offsets_rows _ _ (flat (camera_center cam)) Hx1);
      [| reflexivity | exact Hcl | reflexivity].
    unfold bind at 1. unfold lift at 1.
    rewrite (tensor_repeat_vector _ _ Hcs).
    unfold bind at 1. unfold lift at 1.
    rewrite Hcn, Hfn2.
    rewrite (offsets_rows _ _ (flat (camera_center cam)) Hx2);
      [| reflexivity | exact Hcl | reflexivity].
    unfold bind at 1. unfold lift at 1.
    rewrite (torch_cat_rows _ _ [3]); [| reflexivity | reflexivity | discriminate].
    unfold bind at 1. unfold lift at 1.
    rewrite (tensor_norm_rows _ 3) by reflexivity.
    unfold bind at 1. unfold lift at 1.
    unfold tensor_div. rewrite (broadcast2_column fdiv _ _ 3).
    + unfold bind at 1. unfold lift at 1.
      unfold call_eval_sh, bind, emit, lift, ret.
      lazymatch goal with
      | |- ?L = (_ ++ [EvEvalSH _ ?eS ?ev], _) =>
          lazymatch L with
          | context [eval_sh _ ?S0 ?v0] =>
              unify eS S0; unify ev v0; destruct (eval_sh _ S0 v0)
          end
      end; reflexivity.
    + reflexivity.
    + reflexivity.
    + unfold size0. simpl. now rewrite length_map.
    + simpl. rewrite <- map_app. apply Forall_forall. intros r Hin.
      apply in_map_iff in Hin as [x [<- Hin]]. rewrite length_map2.
      assert (length x = 3).
      { apply in_app_or in Hin as [Hin|Hin];
          [rewrite Forall_forall in F1; apply (F1 x Hin)
          |rewrite Forall_forall in F2; apply (F2 x Hin)]. }
      lia.
    + simpl. apply Forall_forall. intros r Hin.
      apply in_map_iff in Hin as [x [<- _]]. apply length_norm_item.
  - simpl. repeat split.
    rewrite <- !map_app. apply unit_direction_rows; [|exact Hcl].
    apply Forall_app. split; assumption.
Qed.

Lemma math_tan_accepts (x : scalar) :
  is_infinite x = false -> math_tan x = Ok (tan_value x).
Proof. destruct x; try reflexivity. discriminate. Qed.

Lemma fov_ok_inv (cam : Camera) :
  fov_ok cam = true ->
  math_tan (py_mul (FoVx cam) (fhalf py_prec py_emax))
  = Ok (tan_value (py_mul (FoVx cam) (fhalf py_prec py_emax)))
  /\ math_tan (py_mul (FoVy cam) (fhalf py_prec py_emax))
     = Ok (tan_value (py_mul (FoVy cam) (fhalf py_prec py_emax))).
Proof.
  unfold fov_ok. intro H. apply andb_prop in H as [Hx Hy].
  apply negb_true_iff in Hx, Hy.
  split; now apply math_tan_accepts.
Qed.

(** Lines 26-37: what is there when line 40 is reached. *)
Lemma render_prefix (cam : Camera) (pc prePC : GaussianModel)
  (pipe : PipelineParams) (bg : tensor) (sm : scalar)
  (oc : option tensor) :
  cloud_ok sm pc = true -> cloud_ok sm prePC = true ->
  run (render cam pc prePC pipe bg sm oc)
  = match math_tan (py_mul (FoVx cam) (fhalf py_prec py_emax)) with
    | Raise e => ([EvRetainGrad grad_enabled], Raise e)
    | Ok tanfovx =>
        match math_tan (py_mul (FoVy cam) (fhalf py_prec py_emax)) with
        | Raise e => ([EvRetainGrad grad_enabled], Raise e)
        | Ok tanfovy =>
            match color_inputs cam pc prePC pipe oc
                               [EvRetainGrad grad_enabled] with
            | (tr, Ok (shs_, colors_precomp_)) =>
                let s := raster_settings_for cam pc pipe bg sm
                                             tanfovx tanfovy in
                let a := merged_args pc prePC pipe sm shs_ colors_precomp_ in
                (tr ++ [EvRasterize s a], outcome pc s a)
            | (tr, Raise e) => (tr, Raise e)
            end
        end
    end.
Proof.
  intros H1 H2.
  pose proof (geometry_inputs_run pc prePC pipe sm
                [EvRetainGrad grad_enabled] H1 H2) as Hg.
  apply cloud_ok_inv in H1 as (Hx1 & Hp1 & Ho1 & _).
  apply cloud_ok_inv in H2 as (Hx2 & Hp2 & Ho2 & _).
  unfold run, render, merged_args, outcome.
  unfold bind at 1. rewrite retain_placeholder. simpl app.
  rewrite untracked_placeholder.
  rewrite (cat_shaped _ _ _ _ _ Hp1 Hp2) by discriminate.
  unfold bind at 1. unfold lift at 1.
  rewrite (cat_shaped _ _ _ _ _ Ho1 Ho2) by discriminate.
  unfold bind at 1. unfold lift at 1.
  rewrite (torch_cat_rows _ _ [3]);
    [| apply (has_shape_inv _ _ _ Hx1) | apply (has_shape_inv _ _ _ Hx2)
     | discriminate].
  unfold bind at 1. unfold lift at 1.
  unfold bind at 1. unfold lift at 1.
  destruct (math_tan (py_mul (FoVx cam) (fhalf py_prec py_emax)))
    as [tx|ex]; [|reflexivity].
  unfold bind at 1. unfold lift at 1.
  destruct (math_tan (py_mul (FoVy cam) (fhalf py_prec py_emax)))
    as [ty|ey]; [|reflexivity].
  unfold bind at 1. rewrite Hg.
  unfold bind at 1. cbv beta iota zeta.
  destruct (compute_cov3D_python pipe); cbv beta iota zeta;
  destruct (color_inputs cam pc prePC pipe oc [EvRetainGrad grad_enabled])
    as [tr [[shs_ cols_]|e]].
  - unfold merged_args, outcome, cat_rows, call_rasterizer.
    simpl item_shape.
    replace (item_shape (get_xyz pc)) with [3]
      by (symmetry; apply (has_shape_inv _ _ _ Hx1)).
    unfold bind, emit, lift, ret. cbv zeta.
    match goal with |- context [rasterizer ?s ?a] =>
      destruct (rasterizer s a) as [[img rad]|] end; reflexivity.
  - reflexivity.
  - unfold merged_args, outcome, cat_rows, call_rasterizer.
    simpl item_shape.
    replace (item_shape (get_xyz pc)) with [3]
      by (symmetry; apply (has_shape_inv _ _ _ Hx1)).
    unfold bind, emit, lift, ret. cbv zeta.
    match goal with |- context [rasterizer ?s ?a] =>
      destruct (rasterizer s a) as [[img rad]|] end; reflexivity.
  - reflexivity.
Qed.

(** The whole body, up to the colour stage, which is left as it is. *)
Lemma render_run (cam : Camera) (pc prePC : GaussianModel)
  (pipe : PipelineParams) (bg : tensor) (sm : scalar)
  (oc : option tensor) :
  cloud_ok sm pc = true -> cloud_ok sm prePC = true ->
  fov_ok cam = true ->
  run (render cam pc prePC pipe bg sm oc)
  = match color_inputs cam pc prePC pipe oc [EvRetainGrad grad_enabled] with
    | (tr, Ok (shs_, colors_precomp_)) =>
        let s := settings_of cam pc pipe bg sm in
        let a := merged_args pc prePC pipe sm shs_ colors_precomp_ in
        (tr ++ [EvRasterize s a], outcome pc s a)
    | (tr, Raise e) => (tr, Raise e)
    end.
Proof.
  intros H1 H2 Hf. rewrite (render_prefix cam pc prePC pipe bg sm oc H1 H2).
  destruct (fov_ok_inv cam Hf) as (-> & ->). reflexivity.
Qed.

Lemma camera_ok_inv (cam : Camera) :
  camera_ok cam = true ->
  has_shape (camera_center cam) 3 [] = true /\ fov_ok cam = true.
Proof. unfold camera_ok. intro H. now apply andb_prop in H. Qed.

Lemma dynamic_first_app {X : Type} (a b : list X) (n1 n2 : nat) :
  length a = n1 -> length b = n2 -> dynamic_first n1 n2 (a ++ b) a b.
Proof.
  intros Ha Hb. unfold dynamic_first. repeat split.
  - rewrite length_app. lia.
  - intros i Hi. apply nth_error_app1. lia.
  - intros i Hi _. rewrite nth_error_app2 by lia. now rewrite Ha.
Qed.

(** On well-shaped inputs the body gets as far as the rasterizer call, with
    the merged arguments; the colour inputs depend on the mode. *)
Lemma render_reaches_rasterizer (cam : Camera) (pc prePC : GaussianModel)
  (pipe : PipelineParams) (bg : tensor) (sm : scalar) (oc : option tensor) :
  inputs_ok cam pc prePC sm ->
  view_keeps_shape ->
  eval_sh_returns (active_sh_degree pc) (sh_coeffs pc) ->
  exists (mid : list event) (shs_ cols_ : option tensor),
    run (render cam pc prePC pipe bg sm oc)
    = (EvRetainGrad grad_enabled :: mid
         ++ [EvRasterize (settings_of cam pc pipe bg sm)
                         (merged_args pc prePC pipe sm shs_ cols_)],
       outcome pc (settings_of cam pc pipe bg sm)
               (merged_args pc prePC pipe sm shs_ cols_))
    /\ match oc with
       | Some c => mid = [] /\ shs_ = None /\ cols_ = Some c
       | None =>
           if convert_SHs_python pipe then
             exists S v e,
               mid = [EvEvalSH (active_sh_degree pc) S v]
               /\ eval_sh (active_sh_degree pc) S v = Ok e
               /\ size0 e = size0 (get_xyz pc) + size0 (get_xyz prePC)
               /\ item_shape S = [3; sh_coeffs pc]
               /\ items S
                  = map (sh_item (sh_coeffs pc)) (items (get_features pc))
                    ++ map (sh_item (sh_coeffs prePC))
                           (items (get_features prePC))
               /\ item_shape v = [3]
               /\ items v
                  = map (unit_direction (flat (camera_center cam)))
                        (items (get_xyz pc) ++ items (get_xyz prePC))
               /\ shs_ = None /\ cols_ = Some (shade e)
           else
             mid = []
             /\ shs_ = Some (cat_rows (get_features pc) (get_features prePC))
             /\ cols_ = None
       end.
Proof.
  intros (H1 & H2 & Hcam & Hk) Hview Hev.
  apply camera_ok_inv in Hcam as (Hcam & Hfov).
  rewrite (render_run cam pc prePC pipe bg sm oc H1 H2 Hfov).
  destruct oc as [c|].
  - rewrite color_inputs_override. exists [], None, (Some c).
    split; [reflexivity | repeat split].
  - destruct (convert_SHs_python pipe) eqn:Hc.
    + destruct (color_inputs_eval cam pc prePC pipe sm H1 H2 Hcam Hview
                                  Hk Hc)
        as (S & v & Hrun & HsS & HiS & Hsv & Hiv).
      rewrite Hrun.
      assert (Hn1 : size0 (get_features pc) = size0 (get_xyz pc)).
      { apply cloud_ok_inv in H1 as (_ & _ & _ & _ & _ & Hf & _).
        apply (has_shape_inv _ _ _ Hf). }
      assert (Hn2 : size0 (get_features prePC) = size0 (get_xyz prePC)).
      { apply cloud_ok_inv in H2 as (_ & _ & _ & _ & _ & Hf & _).
        apply (has_shape_inv _ _ _ Hf). }
      assert (HnS : size0 S = size0 (get_xyz pc) + size0 (get_xyz prePC)).
      { unfold size0 in *. rewrite HiS, length_app, !length_map. lia. }
      assert (Hnv : size0 v = size0 (get_xyz pc) + size0 (get_xyz prePC)).
      { unfold size0 in *. rewrite Hiv, length_map, length_app. lia. }
      destruct (Hev S v HsS Hsv) as (e & He & Hne); [lia|].
      rewrite He.
      exists [EvEvalSH (active_sh_degree pc) S v], None, (Some (shade e)).
      split; [reflexivity|].
      exists S, v, e. repeat split; try assumption. lia.
    + rewrite (color_inputs_raw cam pc prePC pipe sm _ H1 H2 Hk Hc).
      exists [], (Some (cat_rows (get_features pc) (get_features prePC))),
        None.
      split; [reflexivity | repeat split].
Qed.

Lemma size0_shade (e : tensor) : size0 (shade e) = size0 e.
Proof.
  unfold shade, torch_clamp_min, add_scalar, size0. simpl.
  now rewrite !length_map.
Qed.

Lemma length_zero_rows (t : tensor) : length (zero_rows t) = size0 t.
Proof. unfold zero_rows, size0. apply length_map. Qed.

(** The row counts of a well-shaped cloud's tensors. *)
Lemma cloud_ok_sizes (sm : scalar) (c : GaussianModel) :
  cloud_ok sm c = true ->
  let n := size0 (get_xyz c) in
  length (items (_xyz c)) = n /\
  length (items (_opacity c)) = n /\
  length (items (get_scaling c)) = n /\
  length (items (get_rotation c)) = n /\
  length (items (get_features c)) = n /\
  length (items (get_covariance c sm)) = n.
Proof.
  intro H. apply cloud_ok_inv in H as (_ & H1 & H2 & H3 & H4 & H5 & H6).
  repeat split;
    match goal with
    | H : has_shape ?t _ _ = true |- length (items ?t) = _ =>
        apply (has_shape_inv _ _ _ H)
    end.
Qed.

(** [clamp_min(., 0.0)] leaves nothing below zero; what it leaves is zero
    or more, or the NaN it was given. *)
Lemma fclamp_min_zero (x : scalar) :
  SFltb (fclamp_min fzero x) fzero = false
  /\ (is_nan (fclamp_min fzero x) = false ->
      SFleb fzero (fclamp_min fzero x) = true).
Proof.
  unfold fclamp_min. destruct (SFltb x fzero) eqn:E.
  - split; reflexivity.
  - split; [exact E|]. intro Hn.
    destruct x as [s|s| |s m e]; try discriminate; try reflexivity;
      destruct s; try discriminate; reflexivity.
Qed.

Lemma torch_clamp_min_zero (t : tensor) (row : list scalar) (x : scalar) :
  In row (items (torch_clamp_min t fzero)) -> In x row ->
  SFltb x fzero = false /\ (is_nan x = false -> SFleb fzero x = true).
Proof.
  unfold torch_clamp_min. simpl. intros Hrow Hx.
  apply in_map_iff in Hrow as [r [<- _]].
  apply in_map_iff in Hx as [y [<- _]].
  apply fclamp_min_zero.
Qed.

Lemma nth_gt_zero (rs : list Z) (i : nat) :
  nth i (gt_zero rs) false = (0 <? nth i rs 0)%Z.
Proof.
  unfold gt_zero.
  change false with ((fun r => (0 <? r)%Z) 0%Z). apply map_nth.
Qed.

Lemma length_gt_zero (rs : list Z) : length (gt_zero rs) = length rs.
Proof. unfold gt_zero. apply length_map. Qed.

Lemma size0_cat_rows (a b : tensor) :
  size0 (cat_rows a b) = size0 a + size0 b.
Proof. unfold cat_rows, size0. simpl. apply length_app. Qed.

(* ===================================================================== *)
(** * Properties of [render] *)
(* ===================================================================== *)

(** C1.  For clouds of [n1] (dynamic) and [n2] (secondary) primitives, every
    merged per-primitive tensor that reaches the rasterizer has [n1 + n2]
    rows, the first [n1] being the dynamic cloud's rows and the next [n2]
    the secondary cloud's: the positions, the opacities, the screen-space
    placeholder, the covariance or the scales and rotations, and the raw
    features; when the colours are evaluated locally, the reshaped features
    and the view directions given to [eval_sh] are merged the same way and
    the colour tensor made from its answer has [n1 + n2] rows. *)
Theorem C1_merged_tensors_dynamic_first (cam : Camera)
  (pc prePC : GaussianModel) (pipe : PipelineParams) (bg : tensor)
  (sm : scalar) (oc : option tensor) :
  inputs_ok cam pc prePC sm ->
  view_keeps_shape ->
  eval_sh_returns (active_sh_degree pc) (sh_coeffs pc) ->
  let n1 := size0 (get_xyz pc) in
  let n2 := size0 (get_xyz prePC) in
  exists tr s a,
    fst (run (render cam pc prePC pipe bg sm oc)) = tr ++ [EvRasterize s a]
    /\ dynamic_first n1 n2 (items (means3D a))
                     (items (_xyz pc)) (items (_xyz prePC))
    /\ dynamic_first n1 n2 (items (opacities a))
                     (items (_opacity pc)) (items (_opacity prePC))
    /\ dynamic_first n1 n2 (items (means2D a))
                     (zero_rows (get_xyz pc)) (zero_rows (get_xyz prePC))
    /\ (if compute_cov3D_python pipe
        then exists cov,
               cov3D_precomp a = Some cov
               /\ dynamic_first n1 n2 (items cov)
                                (items (get_covariance pc sm))
                                (items (get_covariance prePC sm))
        else exists sc ro,
               scales a = Some sc /\ rotations a = Some ro
               /\ dynamic_first n1 n2 (items sc)
                                (items (get_scaling pc))
                                (items (get_scaling prePC))
               /\ dynamic_first n1 n2 (items ro)
                                (items (get_rotation pc))
                                (items (get_rotation prePC)))
    /\ match oc with
       | Some _ => True
       | None =>
           if convert_SHs_python pipe
           then exists S v e,
                  In (EvEvalSH (active_sh_degree pc) S v) tr
                  /\ eval_sh (active_sh_degree pc) S v = Ok e
                  /\ colors_precomp a = Some (shade e)
                  /\ size0 (shade e) = n1 + n2
                  /\ dynamic_first n1 n2 (items S)
                       (map (sh_item (sh_coeffs pc)) (items (get_features pc)))
                       (map (sh_item (sh_coeffs prePC))
                            (items (get_features prePC)))
                  /\ dynamic_first n1 n2 (items v)
                       (map (unit_direction (flat (camera_center cam)))
                            (items (get_xyz pc)))
                       (map (unit_direction (flat (camera_center cam)))
                            (items (get_xyz prePC)))
           else exists raw,
                  shs a = Some raw
                  /\ dynamic_first n1 n2 (items raw)
                       (items (get_features pc)) (items (get_features prePC))
       end.
Proof.
  intros Hin Hview Hev n1 n2.
  destruct (render_reaches_rasterizer cam pc prePC pipe bg sm oc Hin Hview
                                      Hev)
    as (mid & shs_ & cols_ & Hrun & Hmode).
  destruct Hin as (H1 & H2 & _ & _).
  destruct (cloud_ok_sizes sm pc H1) as (Lx1 & Lo1 & Ls1 & Lr1 & Lf1 & Lc1).
  destruct (cloud_ok_sizes sm prePC H2) as (Lx2 & Lo2 & Ls2 & Lr2 & Lf2 & Lc2).
  fold n1 in Lx1, Lo1, Ls1, Lr1, Lf1, Lc1.
  fold n2 in Lx2, Lo2, Ls2, Lr2, Lf2, Lc2.
  exists (EvRetainGrad grad_enabled :: mid),
    (settings_of cam pc pipe bg sm),
    (merged_args pc prePC pipe sm shs_ cols_).
  rewrite Hrun. split; [reflexivity|]. simpl.
  split; [now apply dynamic_first_app|].
  split; [now apply dynamic_first_app|].
  split; [apply dynamic_first_app; apply length_zero_rows|].
  split.
  - destruct (compute_cov3D_python pipe).
    + eexists. split; [reflexivity|]. now apply dynamic_first_app.
    + do 2 eexists. split; [reflexivity|]. split; [reflexivity|].
      split; now apply dynamic_first_app.
  - destruct oc as [c|]; [exact I|].
    destruct (convert_SHs_python pipe).
    + destruct Hmode as (S & v & e & -> & He & Hne & _ & HiS & _ & Hiv & _ & ->).
      exists S, v, e. split; [right; left; reflexivity|].
      split; [exact He|]. split; [reflexivity|].
      split; [rewrite size0_shade; exact Hne|].
      split.
      * rewrite HiS. apply dynamic_first_app; now rewrite length_map.
      * rewrite Hiv, map_app.
        apply dynamic_first_app; now rewrite length_map.
    + destruct Hmode as (_ & -> & _). eexists. split; [reflexivity|].
      simpl. now apply dynamic_first_app.
Qed.

(** C2 (as amended).  Without an override colour and with
    [convert_SHs_python] set, [eval_sh] is called with the dynamic cloud's
    active degree [d], with [S], the transposed features of the dynamic
    cloud followed by those of the secondary cloud, of shape
    [(n1 + n2, 3, K)], and with [v], of shape [(n1 + n2, 3)], which holds
    for every position row of [get_xyz], in the same order, its offset from
    the camera position divided by the norm of that offset.  When [eval_sh]
    answers [e], the colour input of the rasterizer has the shape of [e]
    and its entries are those of [e] plus 0.5, replaced by 0 where that sum
    is below 0.  So every entry is zero or more, or is a NaN; none is
    below zero.  The secondary cloud's active degree plays no part. *)
Theorem C2_local_colour_evaluation (cam : Camera) (pc prePC : GaussianModel)
  (pipe : PipelineParams) (bg : tensor) (sm : scalar) :
  inputs_ok cam pc prePC sm ->
  view_keeps_shape ->
  convert_SHs_python pipe = true ->
  let n1 := size0 (get_xyz pc) in
  let n2 := size0 (get_xyz prePC) in
  exists (S v : tensor) (rest : list event),
    fst (run (render cam pc prePC pipe bg sm None))
    = EvRetainGrad grad_enabled
        :: EvEvalSH (active_sh_degree pc) S v :: rest
    /\ shape S = [n1 + n2; 3; sh_coeffs pc]
    /\ items S = map (sh_item (sh_coeffs pc)) (items (get_features pc))
                 ++ map (sh_item (sh_coeffs prePC))
                        (items (get_features prePC))
    /\ shape v = [n1 + n2; 3]
    /\ items v = map (unit_direction (flat (camera_center cam)))
                     (items (get_xyz pc) ++ items (get_xyz prePC))
    /\ (forall e,
          eval_sh (active_sh_degree pc) S v = Ok e ->
          exists s a col,
            rest = [EvRasterize s a]
            /\ shs a = None
            /\ colors_precomp a = Some col
            /\ item_shape col = item_shape e
            /\ items col
               = map (map (fun x =>
                             let y := SFadd prec emax x
                                        (binary_normalize prec emax 1 (-1)
                                                          false) in
                             if SFltb y (S754_zero false)
                             then S754_zero false else y))
                     (items e)
            /\ forall row x,
                 In row (items col) -> In x row ->
                 SFltb x (S754_zero false) = false
                 /\ (x = S754_nan \/ SFleb (S754_zero false) x = true))
    /\ (forall k,
          run (render cam pc (with_active_sh_degree prePC k) pipe bg sm None)
          = run (render cam pc prePC pipe bg sm None)).
Proof.
  intros (H1 & H2 & Hcam & Hk) Hview Hc n1 n2.
  apply camera_ok_inv in Hcam as (Hcam & Hfov).
  destruct (color_inputs_eval cam pc prePC pipe sm H1 H2 Hcam Hview Hk Hc)
    as (S & v & Hrun & HsS & HiS & Hsv & Hiv).
  destruct (cloud_ok_sizes sm pc H1) as (_ & _ & _ & _ & Lf1 & _).
  destruct (cloud_ok_sizes sm prePC H2) as (_ & _ & _ & _ & Lf2 & _).
  assert (Hsame : forall k,
    run (render cam pc (with_active_sh_degree prePC k) pipe bg sm None)
    = run (render cam pc prePC pipe bg sm None)) by (intro k; reflexivity).
  exists S, v.
  rewrite (render_run cam pc prePC pipe bg sm None H1 H2 Hfov), Hrun in *.
  assert (Hfacts :
    shape S = [n1 + n2; 3; sh_coeffs pc]
    /\ items S = map (sh_item (sh_coeffs pc)) (items (get_features pc))
                 ++ map (sh_item (sh_coeffs prePC))
                        (items (get_features prePC))
    /\ shape v = [n1 + n2; 3]
    /\ items v = map (unit_direction (flat (camera_center cam)))
                     (items (get_xyz pc) ++ items (get_xyz prePC))).
  { unfold shape, size0. rewrite HsS, Hsv, HiS, Hiv.
    rewrite length_app, !length_map, length_app, Lf1, Lf2.
    repeat split. }
  destruct Hfacts as (F1 & F2 & F3 & F4).
  destruct (eval_sh (active_sh_degree pc) S v) as [e|x] eqn:He.
  - eexists. split; [reflexivity|].
    do 4 (split; [assumption|]). split.
    + intros e' [= <-]. do 3 eexists. split; [reflexivity|].
      split; [reflexivity|]. split; [reflexivity|].
      split; [reflexivity|]. split.
      * unfold shade, torch_clamp_min, add_scalar. simpl.
        rewrite map_map. apply map_ext. intro r. rewrite map_map.
        reflexivity.
      * intros row x Hrow Hx.
        destruct (torch_clamp_min_zero _ row x Hrow Hx) as (Hlt & Hle).
        split; [exact Hlt|].
        destruct x as [sx|sx| |sx mx ex]; [right | right | left | right];
          try reflexivity; now apply Hle.
    + exact Hsame.
  - exists []. split; [reflexivity|].
    do 4 (split; [assumption|]). split.
    + intros e [=].
    + exact Hsame.
Qed.

(** C3 (as amended).  Without an override colour and with
    [convert_SHs_python] unset, the features of the two clouds are
    concatenated as they are stored, dynamic cloud first, with no transpose
    and no view (those belong to the local-evaluation branch); the raw
    tensor given to the rasterizer keeps the stored layout and has shape
    [(n1 + n2, K, 3)], [K] being the number of coefficients per channel. *)
Theorem C3_raw_features_keep_layout (cam : Camera) (pc prePC : GaussianModel)
  (pipe : PipelineParams) (bg : tensor) (sm : scalar) :
  inputs_ok cam pc prePC sm ->
  convert_SHs_python pipe = false ->
  exists s a raw,
    fst (run (render cam pc prePC pipe bg sm None))
    = [EvRetainGrad grad_enabled; EvRasterize s a]
    /\ shs a = Some raw
    /\ colors_precomp a = None
    /\ shape raw
       = [size0 (get_xyz pc) + size0 (get_xyz prePC); sh_coeffs pc; 3]
    /\ items raw = items (get_features pc) ++ items (get_features prePC).
Proof.
  intros (H1 & H2 & Hcam & Hk) Hc.
  apply camera_ok_inv in Hcam as (_ & Hfov).
  rewrite (render_run cam pc prePC pipe bg sm None H1 H2 Hfov).
  rewrite (color_inputs_raw cam pc prePC pipe sm _ H1 H2 Hk Hc).
  do 3 eexists. split; [reflexivity|]. split; [reflexivity|].
  split; [reflexivity|]. split; [|reflexivity].
  unfold shape. rewrite size0_cat_rows. simpl item_shape.
  apply cloud_ok_inv in H1 as (_ & _ & _ & _ & _ & Hf1 & _).
  apply cloud_ok_inv in H2 as (_ & _ & _ & _ & _ & Hf2 & _).
  destruct (has_shape_inv _ _ _ Hf1) as (-> & -> & _).
  destruct (has_shape_inv _ _ _ Hf2) as (-> & _ & _).
  reflexivity.
Qed.

(** C4.  With [compute_cov3D_python] set, the rasterizer gets no scales
    and no rotations, and a covariance tensor of [n1 + n2] rows: the dynamic
    cloud's covariance for [scaling_modifier] followed by the secondary
    cloud's.  With the flag unset it gets no covariance, and merged scales
    and rotations.  So the covariance is present exactly when the scales and
    rotations are absent. *)
Theorem C4_geometry_inputs_exclusive (cam : Camera)
  (pc prePC : GaussianModel) (pipe : PipelineParams) (bg : tensor)
  (sm : scalar) (oc : option tensor) :
  inputs_ok cam pc prePC sm ->
  view_keeps_shape ->
  eval_sh_returns (active_sh_degree pc) (sh_coeffs pc) ->
  let n1 := size0 (get_xyz pc) in
  let n2 := size0 (get_xyz prePC) in
  exists tr s a,
    fst (run (render cam pc prePC pipe bg sm oc)) = tr ++ [EvRasterize s a]
    /\ (compute_cov3D_python pipe = true ->
        scales a = None /\ rotations a = None
        /\ exists cov,
             cov3D_precomp a = Some cov
             /\ size0 cov = n1 + n2
             /\ items cov = items (get_covariance pc sm)
                            ++ items (get_covariance prePC sm))
    /\ (compute_cov3D_python pipe = false ->
        cov3D_precomp a = None
        /\ exists sc ro,
             scales a = Some sc /\ rotations a = Some ro
             /\ size0 sc = n1 + n2 /\ size0 ro = n1 + n2
             /\ items sc = items (get_scaling pc) ++ items (get_scaling prePC)
             /\ items ro = items (get_rotation pc)
                           ++ items (get_rotation prePC))
    /\ (cov3D_precomp a <> None <-> scales a = None /\ rotations a = None).
Proof.
  intros Hin Hview Hev n1 n2.
  destruct (render_reaches_rasterizer cam pc prePC pipe bg sm oc Hin Hview
                                      Hev)
    as (mid & shs_ & cols_ & Hrun & _).
  destruct Hin as (H1 & H2 & _ & _).
  destruct (cloud_ok_sizes sm pc H1) as (_ & _ & Ls1 & Lr1 & _ & Lc1).
  destruct (cloud_ok_sizes sm prePC H2) as (_ & _ & Ls2 & Lr2 & _ & Lc2).
  exists (EvRetainGrad grad_enabled :: mid),
    (settings_of cam pc pipe bg sm),
    (merged_args pc prePC pipe sm shs_ cols_).
  rewrite Hrun. split; [reflexivity|]. simpl.
  destruct (compute_cov3D_python pipe).
  - split; [|split; [discriminate|]].
    + intros _. split; [reflexivity|]. split; [reflexivity|].
      eexists. split; [reflexivity|]. split; [|reflexivity].
      rewrite size0_cat_rows. unfold size0, n1, n2. now rewrite Lc1, Lc2.
    + split; [intros _; split; reflexivity | discriminate].
  - split; [discriminate|]. split.
    + intros _. split; [reflexivity|]. do 2 eexists.
      split; [reflexivity|]. split; [reflexivity|].
      rewrite !size0_cat_rows. unfold size0, n1, n2.
      rewrite Ls1, Ls2, Lr1, Lr2. repeat split.
    + split; [intro H; now contradiction H | intros [H _]; discriminate].
Qed.

(** C5.  When an override colour is supplied it is the colour input of the
    rasterizer, unchanged, whatever [convert_SHs_python] says; the [shs]
    argument is [None], [eval_sh] is not called, and the features of the two
    clouds are not read: any other features give the same run. *)
Theorem C5_override_colour_unchanged (cam : Camera)
  (pc prePC : GaussianModel) (pipe : PipelineParams) (bg : tensor)
  (sm : scalar) (c : tensor) :
  cloud_ok sm pc = true -> cloud_ok sm prePC = true ->
  fov_ok cam = true ->
  (exists s a,
     fst (run (render cam pc prePC pipe bg sm (Some c)))
     = [EvRetainGrad grad_enabled; EvRasterize s a]
     /\ colors_precomp a = Some c
     /\ shs a = None)
  /\ (forall f1 f2 : tensor,
        run (render cam (with_features pc f1) (with_features prePC f2)
                    pipe bg sm (Some c))
        = run (render cam pc prePC pipe bg sm (Some c))).
Proof.
  intros H1 H2 Hfov. split.
  - rewrite (render_run cam pc prePC pipe bg sm (Some c) H1 H2 Hfov).
    rewrite color_inputs_override.
    do 2 eexists. repeat split.
  - intros f1 f2. reflexivity.
Qed.

(** C6.  Exactly one of the rasterizer's [shs] and [colors_precomp]
    arguments is not [None]: the override colour when one is supplied; the
    locally evaluated colours when there is none and [convert_SHs_python] is
    set; the raw merged features when there is none and the flag is unset. *)
Theorem C6_one_colour_representation (cam : Camera)
  (pc prePC : GaussianModel) (pipe : PipelineParams) (bg : tensor)
  (sm : scalar) (oc : option tensor) :
  inputs_ok cam pc prePC sm ->
  view_keeps_shape ->
  eval_sh_returns (active_sh_degree pc) (sh_coeffs pc) ->
  exists tr s a,
    fst (run (render cam pc prePC pipe bg sm oc)) = tr ++ [EvRasterize s a]
    /\ match oc with
       | Some c => shs a = None /\ colors_precomp a = Some c
       | None =>
           if convert_SHs_python pipe
           then shs a = None
                /\ exists S v e,
                     In (EvEvalSH (active_sh_degree pc) S v) tr
                     /\ eval_sh (active_sh_degree pc) S v = Ok e
                     /\ colors_precomp a
                        = Some (torch_clamp_min
                                  (add_scalar e (fhalf prec emax)) fzero)
           else colors_precomp a = None
                /\ exists raw,
                     shs a = Some raw
                     /\ items raw = items (get_features pc)
                                    ++ items (get_features prePC)
       end
    /\ ((shs a = None /\ colors_precomp a <> None)
        \/ (shs a <> None /\ colors_precomp a = None)).
Proof.
  intros Hin Hview Hev.
  destruct (render_reaches_rasterizer cam pc prePC pipe bg sm oc Hin Hview
                                      Hev)
    as (mid & shs_ & cols_ & Hrun & Hmode).
  exists (EvRetainGrad grad_enabled :: mid),
    (settings_of cam pc pipe bg sm),
    (merged_args pc prePC pipe sm shs_ cols_).
  rewrite Hrun. split; [reflexivity|]. simpl.
  destruct oc as [c|].
  - destruct Hmode as (_ & -> & ->).
    split; [split; reflexivity|]. left. split; [reflexivity | discriminate].
  - destruct (convert_SHs_python pipe).
    + destruct Hmode as (S & v & e & -> & He & _ & _ & _ & _ & _ & -> & ->).
      split.
      * split; [reflexivity|]. exists S, v, e.
        split; [right; left; reflexivity|]. split; [exact He | reflexivity].
      * left. split; [reflexivity | discriminate].
    + destruct Hmode as (_ & -> & ->). split.
      * split; [reflexivity|]. eexists. split; reflexivity.
      * right. split; [discriminate | reflexivity].
Qed.

(** C7.  The visibility filter that a call returns has one boolean per
    radius that the rasterizer returned for that call, and entry [i] says
    whether [radii[i] > 0]; the rasterizer was given [n1 + n2] primitives,
    so with one radius per primitive the filter has [n1 + n2] entries. *)
Theorem C7_visibility_filter (cam : Camera) (pc prePC : GaussianModel)
  (pipe : PipelineParams) (bg : tensor) (sm : scalar) (oc : option tensor) :
  inputs_ok cam pc prePC sm ->
  view_keeps_shape ->
  eval_sh_returns (active_sh_degree pc) (sh_coeffs pc) ->
  let n1 := size0 (get_xyz pc) in
  let n2 := size0 (get_xyz prePC) in
  exists tr s a,
    fst (run (render cam pc prePC pipe bg sm oc)) = tr ++ [EvRasterize s a]
    /\ size0 (means3D a) = n1 + n2
    /\ forall img rad,
         rasterizer s a = Ok (img, rad) ->
         exists r,
           snd (run (render cam pc prePC pipe bg sm oc)) = Ok r
           /\ radii r = rad
           /\ length (visibility_filter r) = length rad
           /\ (forall i,
                 nth i (visibility_filter r) false = (0 <? nth i rad 0)%Z)
           /\ (length rad = size0 (means3D a) ->
               length (visibility_filter r) = n1 + n2).
Proof.
  intros Hin Hview Hev n1 n2.
  destruct (render_reaches_rasterizer cam pc prePC pipe bg sm oc Hin Hview
                                      Hev)
    as (mid & shs_ & cols_ & Hrun & _).
  destruct Hin as (H1 & H2 & _ & _).
  destruct (cloud_ok_sizes sm pc H1) as (L1 & _).
  destruct (cloud_ok_sizes sm prePC H2) as (L2 & _).
  exists (EvRetainGrad grad_enabled :: mid),
    (settings_of cam pc pipe bg sm),
    (merged_args pc prePC pipe sm shs_ cols_).
  rewrite Hrun. split; [reflexivity|].
  assert (Hsz : size0 (means3D (merged_args pc prePC pipe sm shs_ cols_))
                = n1 + n2).
  { simpl means3D. rewrite size0_cat_rows. unfold size0 in *.
    now rewrite L1, L2. }
  split; [exact Hsz|].
  intros img rad Hr. simpl snd. unfold outcome. rewrite Hr.
  eexists. split; [reflexivity|]. simpl.
  split; [reflexivity|]. split; [apply length_gt_zero|].
  split; [intro i; apply nth_gt_zero|].
  intro Hlen. rewrite length_gt_zero, Hlen. exact Hsz.
Qed.

(** C8.  The screen-space tensor in the returned dictionary is the dynamic
    cloud's own placeholder: zeros shaped like the dynamic cloud's
    positions, [n1] rows whatever the secondary cloud holds, tracked for
    gradients when recording is on.  It is not the merged placeholder given
    to the rasterizer, which has [n1 + n2] rows. *)
Theorem C8_viewspace_points_dynamic_only (cam : Camera)
  (pc prePC : GaussianModel) (pipe : PipelineParams) (bg : tensor)
  (sm : scalar) (oc : option tensor) :
  inputs_ok cam pc prePC sm ->
  view_keeps_shape ->
  eval_sh_returns (active_sh_degree pc) (sh_coeffs pc) ->
  let n1 := size0 (get_xyz pc) in
  let n2 := size0 (get_xyz prePC) in
  exists tr s a,
    fst (run (render cam pc prePC pipe bg sm oc)) = tr ++ [EvRasterize s a]
    /\ size0 (means2D a) = n1 + n2
    /\ forall img rad,
         rasterizer s a = Ok (img, rad) ->
         exists r,
           snd (run (render cam pc prePC pipe bg sm oc)) = Ok r
           /\ viewspace_points r = dynamic_placeholder (get_xyz pc)
           /\ size0 (viewspace_points r) = n1
           /\ items (viewspace_points r) = zero_rows (get_xyz pc)
           /\ requires_grad (viewspace_points r) = grad_enabled
           /\ (0 < n2 -> viewspace_points r <> means2D a).
Proof.
  intros Hin Hview Hev n1 n2.
  destruct (render_reaches_rasterizer cam pc prePC pipe bg sm oc Hin Hview
                                      Hev)
    as (mid & shs_ & cols_ & Hrun & _).
  exists (EvRetainGrad grad_enabled :: mid),
    (settings_of cam pc pipe bg sm),
    (merged_args pc prePC pipe sm shs_ cols_).
  rewrite Hrun. split; [reflexivity|].
  assert (Hsz : size0 (means2D (merged_args pc prePC pipe sm shs_ cols_))
                = n1 + n2).
  { simpl means2D. rewrite size0_cat_rows. unfold size0. simpl.
    now rewrite !length_zero_rows. }
  split; [exact Hsz|].
  intros img rad Hr. simpl snd. unfold outcome. rewrite Hr.
  eexists. split; [reflexivity|].
  cbn [viewspace_points].
  split; [reflexivity|].
  split; [unfold size0; simpl; apply length_zero_rows|].
  split; [reflexivity|]. split; [reflexivity|].
  intros Hn2 Heq. rewrite <- Heq in Hsz.
  unfold size0 in Hsz. simpl in Hsz. rewrite length_zero_rows in Hsz.
  fold n1 in Hsz. lia.
Qed.

(** C9 (as amended).  The request to retain the gradient of the dynamic
    cloud's placeholder is the first thing a call does, before [eval_sh]
    and before the rasterizer, and it is made once.  The placeholder is
    made from a zero tensor that requires grad, so it is tracked exactly
    when gradient recording is on; when it is off the request fails, the
    failure is swallowed and the call goes on to the rasterizer and returns
    what it answers.  The secondary cloud's placeholder is a zero tensor
    that does not require grad: of the two operands of the concatenation
    that makes the merged placeholder, the gradient flows back to the first
    only. *)
Theorem C9_retain_request_comes_first (cam : Camera)
  (pc prePC : GaussianModel) (pipe : PipelineParams) (bg : tensor)
  (sm : scalar) (oc : option tensor) :
  inputs_ok cam pc prePC sm ->
  view_keeps_shape ->
  eval_sh_returns (active_sh_degree pc) (sh_coeffs pc) ->
  exists rest s a,
    fst (run (render cam pc prePC pipe bg sm oc))
    = EvRetainGrad grad_enabled :: rest
    /\ (forall b, ~ In (EvRetainGrad b) rest)
    /\ In (EvRasterize s a) rest
    /\ items (means2D a) = zero_rows (get_xyz pc) ++ zero_rows (get_xyz prePC)
    /\ requires_grad (means2D a) = grad_enabled
    /\ grad_inputs (means2D a) = (if grad_enabled then [true; false] else [])
    /\ forall img rad,
         rasterizer s a = Ok (img, rad) ->
         exists r,
           snd (run (render cam pc prePC pipe bg sm oc)) = Ok r
           /\ items (viewspace_points r) = zero_rows (get_xyz pc)
           /\ requires_grad (viewspace_points r) = grad_enabled
           /\ retains_grad (viewspace_points r) = grad_enabled
           /\ grad_inputs (viewspace_points r)
              = (if grad_enabled then [true] else []).
Proof.
  intros Hin Hview Hev.
  destruct (render_reaches_rasterizer cam pc prePC pipe bg sm oc Hin Hview
                                      Hev)
    as (mid & shs_ & cols_ & Hrun & Hmode).
  exists (mid ++ [EvRasterize (settings_of cam pc pipe bg sm)
                              (merged_args pc prePC pipe sm shs_ cols_)]),
    (settings_of cam pc pipe bg sm),
    (merged_args pc prePC pipe sm shs_ cols_).
  rewrite Hrun. split; [reflexivity|]. split.
  { intros b Hb. apply in_app_or in Hb as [Hb|[Hb|[]]]; [|discriminate].
    destruct oc as [c|].
    - destruct Hmode as (-> & _). exact Hb.
    - destruct (convert_SHs_python pipe).
      + destruct Hmode as (S & v & e & -> & _).
        destruct Hb as [Hb|[]]. discriminate.
      + destruct Hmode as (-> & _). exact Hb. }
  split; [apply in_or_app; right; left; reflexivity|].
  split; [reflexivity|].
  split; [simpl; destruct grad_enabled; reflexivity|].
  split; [simpl; destruct grad_enabled; reflexivity|].
  intros img rad Hr. simpl snd. unfold outcome. rewrite Hr.
  eexists. split; [reflexivity|]. repeat split.
Qed.

(** C10.  The positions and opacities given to the rasterizer are the
    stored fields [_xyz] and [_opacity] of the two clouds, concatenated as
    they are; the screen-space placeholders take their shape from the
    accessor [get_xyz], and the view directions of the local evaluation are
    computed from the rows of [get_xyz].  So whenever [get_xyz] and [_xyz]
    differ, shading and rasterization work from different positions. *)
Theorem C10_stored_fields_and_accessors (cam : Camera)
  (pc prePC : GaussianModel) (pipe : PipelineParams) (bg : tensor)
  (sm : scalar) (oc : option tensor) :
  inputs_ok cam pc prePC sm ->
  view_keeps_shape ->
  eval_sh_returns (active_sh_degree pc) (sh_coeffs pc) ->
  exists tr s a,
    fst (run (render cam pc prePC pipe bg sm oc)) = tr ++ [EvRasterize s a]
    /\ items (means3D a) = items (_xyz pc) ++ items (_xyz prePC)
    /\ items (opacities a) = items (_opacity pc) ++ items (_opacity prePC)
    /\ items (means2D a) = zero_rows (get_xyz pc) ++ zero_rows (get_xyz prePC)
    /\ item_shape (means2D a) = item_shape (get_xyz pc)
    /\ (oc = None -> convert_SHs_python pipe = true ->
        exists S v,
          In (EvEvalSH (active_sh_degree pc) S v) tr
          /\ items v = map (unit_direction (flat (camera_center cam)))
                           (items (get_xyz pc) ++ items (get_xyz prePC))).
Proof.
  intros Hin Hview Hev.
  destruct (render_reaches_rasterizer cam pc prePC pipe bg sm oc Hin Hview
                                      Hev)
    as (mid & shs_ & cols_ & Hrun & Hmode).
  exists (EvRetainGrad grad_enabled :: mid),
    (settings_of cam pc pipe bg sm),
    (merged_args pc prePC pipe sm shs_ cols_).
  rewrite Hrun. split; [reflexivity|]. simpl.
  do 4 (split; [reflexivity|]).
  intros -> Hc. rewrite Hc in Hmode.
  destruct Hmode as (S & v & e & -> & _ & _ & _ & _ & _ & Hiv & _).
  exists S, v. split; [right; left; reflexivity | exact Hiv].
Qed.

(* ===================================================================== *)
(** * Further properties of [render] *)
(* ===================================================================== *)

(** ** Collaborator calls and failures *)

Lemma torch_cat_mismatch (a b : tensor) :
  item_shape a <> [] -> item_shape b <> [] ->
  item_shape a <> item_shape b ->
  torch_cat a b = Raise RuntimeError.
Proof.
  intros Ha Hb Hab. unfold torch_cat, is_empty_1d, shape_eqb.
  destruct (item_shape a) as [|x s]; [contradiction|].
  destruct (item_shape b) as [|y s']; [contradiction|].
  destruct (list_eq_dec Nat.eq_dec (x :: s) (y :: s')); [contradiction|].
  reflexivity.
Qed.

Lemma sh_coeffs_differ (c1 c2 : GaussianModel) :
  max_sh_degree c1 <> max_sh_degree c2 -> sh_coeffs c1 <> sh_coeffs c2.
Proof.
  unfold sh_coeffs. intros Hne Heq. apply Hne.
  apply Nat.pow_inj_l in Heq; lia.
Qed.

(** X1.  The degree that configures the rasterizer is the dynamic
    cloud's active degree, and it is the degree [eval_sh] is called with in
    the local-evaluation mode; the two tangents of the settings are what
    [math.tan] answers for half the field-of-view angles, and [prefiltered]
    is [False].  The settings are made from the camera, the dynamic cloud
    and the call's own arguments: another secondary cloud gives the same
    settings. *)
Theorem X1_raster_settings (cam : Camera) (pc prePC : GaussianModel)
  (pipe : PipelineParams) (bg : tensor) (sm : scalar) (oc : option tensor) :
  inputs_ok cam pc prePC sm ->
  view_keeps_shape ->
  eval_sh_returns (active_sh_degree pc) (sh_coeffs pc) ->
  exists tr s a,
    fst (run (render cam pc prePC pipe bg sm oc)) = tr ++ [EvRasterize s a]
    /\ rs_sh_degree s = active_sh_degree pc
    /\ (forall d S v, In (EvEvalSH d S v) tr -> d = rs_sh_degree s)
    /\ math_tan (py_mul (FoVx cam) (fhalf py_prec py_emax))
       = Ok (rs_tanfovx s)
    /\ math_tan (py_mul (FoVy cam) (fhalf py_prec py_emax))
       = Ok (rs_tanfovy s)
    /\ rs_prefiltered s = false
    /\ (forall prePC' : GaussianModel,
          inputs_ok cam pc prePC' sm ->
          exists tr' a',
            fst (run (render cam pc prePC' pipe bg sm oc))
            = tr' ++ [EvRasterize s a']).
Proof.
  intros Hin Hview Hev.
  destruct (render_reaches_rasterizer cam pc prePC pipe bg sm oc Hin Hview
                                      Hev)
    as (mid & shs_ & cols_ & Hrun & Hmode).
  exists (EvRetainGrad grad_enabled :: mid),
    (settings_of cam pc pipe bg sm),
    (merged_args pc prePC pipe sm shs_ cols_).
  rewrite Hrun. split; [reflexivity|].
  split; [reflexivity|]. split.
  { intros d S v [Hd|Hd]; [discriminate|].
    destruct oc as [c|].
    - destruct Hmode as (-> & _). contradiction.
    - destruct (convert_SHs_python pipe).
      + destruct Hmode as (S' & v' & e & -> & _).
        destruct Hd as [Hd|[]]. now injection Hd as <- _ _.
      + destruct Hmode as (-> & _). contradiction. }
  destruct Hin as (_ & _ & Hcam & _).
  apply camera_ok_inv in Hcam as (_ & Hfov).
  destruct (fov_ok_inv cam Hfov) as (Hx & Hy).
  split; [exact Hx|]. split; [exact Hy|]. split; [reflexivity|].
  intros prePC' Hin'.
  destruct (render_reaches_rasterizer cam pc prePC' pipe bg sm oc Hin' Hview
                                      Hev)
    as (mid' & shs' & cols' & Hrun' & _).
  exists (EvRetainGrad grad_enabled :: mid'),
    (merged_args pc prePC' pipe sm shs' cols').
  rewrite Hrun'. reflexivity.
Qed.

(** X2.  What the rasterizer answers is what [render] answers: its image
    and its radii are returned as they are, and an exception raised inside
    it leaves [render] as that same exception. *)
Theorem X2_rasterizer_outcome_passed_on (cam : Camera)
  (pc prePC : GaussianModel) (pipe : PipelineParams) (bg : tensor)
  (sm : scalar) (oc : option tensor) :
  inputs_ok cam pc prePC sm ->
  view_keeps_shape ->
  eval_sh_returns (active_sh_degree pc) (sh_coeffs pc) ->
  exists tr s a,
    fst (run (render cam pc prePC pipe bg sm oc)) = tr ++ [EvRasterize s a]
    /\ (forall img rad,
          rasterizer s a = Ok (img, rad) ->
          exists r,
            snd (run (render cam pc prePC pipe bg sm oc)) = Ok r
            /\ rendered r = img /\ radii r = rad)
    /\ (forall e,
          rasterizer s a = Raise e ->
          snd (run (render cam pc prePC pipe bg sm oc)) = Raise e).
Proof.
  intros Hin Hview Hev.
  destruct (render_reaches_rasterizer cam pc prePC pipe bg sm oc Hin Hview
                                      Hev)
    as (mid & shs_ & cols_ & Hrun & _).
  exists (EvRetainGrad grad_enabled :: mid),
    (settings_of cam pc pipe bg sm),
    (merged_args pc prePC pipe sm shs_ cols_).
  rewrite Hrun. split; [reflexivity|]. simpl snd. unfold outcome. split.
  - intros img rad ->. eexists. repeat split.
  - intros e ->. reflexivity.
Qed.

(** X3.  In the local-evaluation mode [eval_sh] is called once, with the
    dynamic cloud's active degree, the merged reshaped features and the
    merged view directions, [n1 + n2] rows each; an exception raised inside
    that call ends [render] with that exception, and the rasterizer is not
    invoked. *)
Theorem X3_eval_sh_failure_stops_render (cam : Camera)
  (pc prePC : GaussianModel) (pipe : PipelineParams) (bg : tensor)
  (sm : scalar) :
  inputs_ok cam pc prePC sm ->
  view_keeps_shape ->
  convert_SHs_python pipe = true ->
  let n1 := size0 (get_xyz pc) in
  let n2 := size0 (get_xyz prePC) in
  exists S v rest,
    fst (run (render cam pc prePC pipe bg sm None))
    = EvRetainGrad grad_enabled
        :: EvEvalSH (active_sh_degree pc) S v :: rest
    /\ shape S = [n1 + n2; 3; sh_coeffs pc]
    /\ items S = map (sh_item (sh_coeffs pc)) (items (get_features pc))
                 ++ map (sh_item (sh_coeffs prePC))
                        (items (get_features prePC))
    /\ shape v = [n1 + n2; 3]
    /\ items v = map (unit_direction (flat (camera_center cam)))
                     (items (get_xyz pc) ++ items (get_xyz prePC))
    /\ forall e,
         eval_sh (active_sh_degree pc) S v = Raise e ->
         rest = []
         /\ snd (run (render cam pc prePC pipe bg sm None)) = Raise e.
Proof.
  intros (H1 & H2 & Hcam & Hk) Hview Hc n1 n2.
  apply camera_ok_inv in Hcam as (Hcam & Hfov).
  destruct (color_inputs_eval cam pc prePC pipe sm H1 H2 Hcam Hview Hk Hc)
    as (S & v & Hrun & HsS & HiS & Hsv & Hiv).
  destruct (cloud_ok_sizes sm pc H1) as (_ & _ & _ & _ & Lf1 & _).
  destruct (cloud_ok_sizes sm prePC H2) as (_ & _ & _ & _ & Lf2 & _).
  exists S, v.
  rewrite (render_run cam pc prePC pipe bg sm None H1 H2 Hfov), Hrun.
  assert (Hfacts :
    shape S = [n1 + n2; 3; sh_coeffs pc]
    /\ items S = map (sh_item (sh_coeffs pc)) (items (get_features pc))
                 ++ map (sh_item (sh_coeffs prePC))
                        (items (get_features prePC))
    /\ shape v = [n1 + n2; 3]
    /\ items v = map (unit_direction (flat (camera_center cam)))
                     (items (get_xyz pc) ++ items (get_xyz prePC))).
  { unfold shape, size0. rewrite HsS, Hsv, HiS, Hiv.
    rewrite length_app, !length_map, length_app, Lf1, Lf2.
    repeat split. }
  destruct Hfacts as (F1 & F2 & F3 & F4).
  destruct (eval_sh (active_sh_degree pc) S v) as [e|x] eqn:He.
  - eexists. split; [reflexivity|].
    do 4 (split; [assumption|]). intros e' [=].
  - exists []. split; [reflexivity|].
    do 4 (split; [assumption|]). intros e' [= <-].
    split; reflexivity.
Qed.

(** X4.  Two clouds that store different numbers of spherical-harmonics
    coefficients cannot be rendered from their features: without an
    override colour the call ends in a [RuntimeError] when the features are
    concatenated, in both colour modes, before [eval_sh] or the rasterizer
    is reached. *)
Theorem X4_mismatched_sh_degree_raises (cam : Camera)
  (pc prePC : GaussianModel) (pipe : PipelineParams) (bg : tensor)
  (sm : scalar) :
  cloud_ok sm pc = true -> cloud_ok sm prePC = true ->
  fov_ok cam = true ->
  view_keeps_shape ->
  max_sh_degree pc <> max_sh_degree prePC ->
  run (render cam pc prePC pipe bg sm None)
  = ([EvRetainGrad grad_enabled], Raise RuntimeError).
Proof.
  intros H1 H2 Hfov Hview Hne.
  rewrite (render_run cam pc prePC pipe bg sm None H1 H2 Hfov).
  pose proof (sh_coeffs_differ pc prePC Hne) as Hk.
  apply cloud_ok_inv in H1 as (_ & _ & _ & _ & _ & Hf1 & _).
  apply cloud_ok_inv in H2 as (_ & _ & _ & _ & _ & Hf2 & _).
  destruct (has_shape_inv _ _ _ Hf1) as (_ & Hs1 & F1).
  destruct (has_shape_inv _ _ _ Hf2) as (_ & Hs2 & F2).
  unfold color_inputs. destruct (convert_SHs_python pipe).
  - fold (sh_coeffs pc). fold (sh_coeffs prePC).
    rewrite (tensor_transpose_features _ _ Hs1).
    rewrite (tensor_transpose_features _ _ Hs2).
    unfold bind at 1. unfold lift at 1.
    rewrite tensor_view_3_same;
      [| exact Hview
       | reflexivity
       | unfold sh_coeffs; apply Nat.pow_nonzero; lia
       | apply sh_item_rows; assumption].
    unfold bind at 1. unfold lift at 1.
    unfold bind at 1. unfold lift at 1.
    rewrite tensor_view_3_same;
      [| exact Hview
       | reflexivity
       | unfold sh_coeffs; apply Nat.pow_nonzero; lia
       | apply sh_item_rows; assumption].
    unfold bind at 1. unfold lift at 1.
    rewrite torch_cat_mismatch; [reflexivity | discriminate | discriminate |].
    simpl. intro H. now injection H.
  - rewrite torch_cat_mismatch; [reflexivity | | |].
    + rewrite Hs1. discriminate.
    + rewrite Hs2. discriminate.
    + rewrite Hs1, Hs2. intro H. now injection H.
Qed.

(** X5.  A call that reaches the rasterizer invokes it once, as the last
    thing it does; [eval_sh] is invoked once, between the gradient request
    and the rasterizer, exactly when there is no override colour and
    [convert_SHs_python] is set, and not at all otherwise. *)
Theorem X5_collaborator_calls (cam : Camera) (pc prePC : GaussianModel)
  (pipe : PipelineParams) (bg : tensor) (sm : scalar) (oc : option tensor) :
  inputs_ok cam pc prePC sm ->
  view_keeps_shape ->
  eval_sh_returns (active_sh_degree pc) (sh_coeffs pc) ->
  exists s a,
    match oc with
    | None =>
        if convert_SHs_python pipe
        then exists S v,
               fst (run (render cam pc prePC pipe bg sm oc))
               = [EvRetainGrad grad_enabled;
                  EvEvalSH (active_sh_degree pc) S v;
                  EvRasterize s a]
        else fst (run (render cam pc prePC pipe bg sm oc))
             = [EvRetainGrad grad_enabled; EvRasterize s a]
    | Some _ =>
        fst (run (render cam pc prePC pipe bg sm oc))
        = [EvRetainGrad grad_enabled; EvRasterize s a]
    end.
Proof.
  intros Hin Hview Hev.
  destruct (render_reaches_rasterizer cam pc prePC pipe bg sm oc Hin Hview
                                      Hev)
    as (mid & shs_ & cols_ & Hrun & Hmode).
  exists (settings_of cam pc pipe bg sm),
    (merged_args pc prePC pipe sm shs_ cols_).
  rewrite Hrun. simpl fst.
  destruct oc as [c|].
  - destruct Hmode as (-> & _). reflexivity.
  - destruct (convert_SHs_python pipe).
    + destruct Hmode as (S & v & e & -> & _). exists S, v. reflexivity.
    + destruct Hmode as (-> & _). reflexivity.
Qed.

(** ** Fields that are not read, gradient flags, empty clouds *)

(** X6.  The geometry representation that is not selected is not read:
    with [compute_cov3D_python] set, other scales and rotations in either
    cloud give the same run; with the flag unset, another [get_covariance]
    in either cloud gives the same run. *)
Theorem X6_unselected_geometry_not_read (cam : Camera)
  (pc prePC : GaussianModel) (pipe : PipelineParams) (bg : tensor)
  (sm : scalar) (oc : option tensor) :
  if compute_cov3D_python pipe
  then forall sc1 ro1 sc2 ro2 : tensor,
         run (render cam (with_scaling_rotation pc sc1 ro1)
                     (with_scaling_rotation prePC sc2 ro2) pipe bg sm oc)
         = run (render cam pc prePC pipe bg sm oc)
  else forall f1 f2 : scalar -> tensor,
         run (render cam (with_covariance pc f1) (with_covariance prePC f2)
                     pipe bg sm oc)
         = run (render cam pc prePC pipe bg sm oc).
Proof.
  destruct (compute_cov3D_python pipe) eqn:E; intros;
    unfold run, render, geometry_inputs; rewrite E; reflexivity.
Qed.

(** X7.  Nothing is detached on the way to the rasterizer: the merged
    positions, and likewise the merged opacities, require grad when
    recording is on and the stored tensor of either cloud does, the
    secondary cloud's included, and the gradient then flows back to exactly
    the operands that require it.  The merged screen-space placeholder
    requires grad exactly when recording is on, is then not a leaf, and
    hands its gradient to the dynamic cloud's placeholder only. *)
Theorem X7_gradient_flags_of_merged_inputs (cam : Camera)
  (pc prePC : GaussianModel) (pipe : PipelineParams) (bg : tensor)
  (sm : scalar) (oc : option tensor) :
  inputs_ok cam pc prePC sm ->
  view_keeps_shape ->
  eval_sh_returns (active_sh_degree pc) (sh_coeffs pc) ->
  exists tr s a,
    fst (run (render cam pc prePC pipe bg sm oc)) = tr ++ [EvRasterize s a]
    /\ requires_grad (means3D a)
       = grad_enabled
         && (requires_grad (_xyz pc) || requires_grad (_xyz prePC))
    /\ (requires_grad (means3D a) = true ->
        grad_inputs (means3D a)
        = [requires_grad (_xyz pc); requires_grad (_xyz prePC)])
    /\ requires_grad (opacities a)
       = grad_enabled
         && (requires_grad (_opacity pc) || requires_grad (_opacity prePC))
    /\ (requires_grad (opacities a) = true ->
        grad_inputs (opacities a)
        = [requires_grad (_opacity pc); requires_grad (_opacity prePC)])
    /\ requires_grad (means2D a) = grad_enabled
    /\ is_leaf (means2D a) = negb grad_enabled
    /\ retains_grad (means2D a) = false
    /\ grad_inputs (means2D a) = (if grad_enabled then [true; false] else []).
Proof.
  intros Hin Hview Hev.
  destruct (render_reaches_rasterizer cam pc prePC pipe bg sm oc Hin Hview
                                      Hev)
    as (mid & shs_ & cols_ & Hrun & _).
  exists (EvRetainGrad grad_enabled :: mid),
    (settings_of cam pc pipe bg sm),
    (merged_args pc prePC pipe sm shs_ cols_).
  rewrite Hrun. split; [reflexivity|]. simpl.
  rewrite !orb_false_r.
  split; [reflexivity|]. split; [intros ->; reflexivity|].
  split; [reflexivity|]. split; [intros ->; reflexivity|].
  destruct grad_enabled; repeat split.
Qed.

(** X8.  With a secondary cloud that holds no primitive, every merged
    tensor given to the rasterizer has exactly the dynamic cloud's rows. *)
Theorem X8_empty_secondary_cloud (cam : Camera) (pc prePC : GaussianModel)
  (pipe : PipelineParams) (bg : tensor) (sm : scalar) (oc : option tensor) :
  inputs_ok cam pc prePC sm ->
  view_keeps_shape ->
  eval_sh_returns (active_sh_degree pc) (sh_coeffs pc) ->
  size0 (get_xyz prePC) = 0 ->
  exists tr s a,
    fst (run (render cam pc prePC pipe bg sm oc)) = tr ++ [EvRasterize s a]
    /\ items (means3D a) = items (_xyz pc)
    /\ items (opacities a) = items (_opacity pc)
    /\ items (means2D a) = zero_rows (get_xyz pc)
    /\ (forall t, cov3D_precomp a = Some t ->
                  items t = items (get_covariance pc sm))
    /\ (forall t, scales a = Some t -> items t = items (get_scaling pc))
    /\ (forall t, rotations a = Some t -> items t = items (get_rotation pc))
    /\ (forall t, shs a = Some t -> items t = items (get_features pc)).
Proof.
  intros Hin Hview Hev Hn.
  destruct (render_reaches_rasterizer cam pc prePC pipe bg sm oc Hin Hview
                                      Hev)
    as (mid & shs_ & cols_ & Hrun & Hmode).
  destruct Hin as (_ & H2 & _ & _).
  destruct (cloud_ok_sizes sm prePC H2) as (Lx & Lo & Ls & Lr & Lf & Lc).
  rewrite Hn in Lx, Lo, Ls, Lr, Lf, Lc.
  apply length_zero_iff_nil in Lx, Lo, Ls, Lr, Lf, Lc.
  assert (Lz : zero_rows (get_xyz prePC) = []).
  { apply length_zero_iff_nil. now rewrite length_zero_rows. }
  exists (EvRetainGrad grad_enabled :: mid),
    (settings_of cam pc pipe bg sm),
    (merged_args pc prePC pipe sm shs_ cols_).
  rewrite Hrun. split; [reflexivity|]. simpl.
  rewrite Lx, Lo, Lz, !app_nil_r.
  do 3 (split; [reflexivity|]).
  destruct (compute_cov3D_python pipe).
  - split; [|split; [discriminate | split; [discriminate|]]].
    + intros t [= <-]. simpl. now rewrite Lc, app_nil_r.
    + destruct oc as [c|]; [destruct Hmode as (_ & -> & _); discriminate|].
      destruct (convert_SHs_python pipe).
      * destruct Hmode as (S & v & e & _ & _ & _ & _ & _ & _ & _ & -> & _).
        discriminate.
      * destruct Hmode as (_ & -> & _). intros t [= <-]. simpl.
        now rewrite Lf, app_nil_r.
  - split; [discriminate|].
    split; [intros t [= <-]; simpl; now rewrite Ls, app_nil_r|].
    split; [intros t [= <-]; simpl; now rewrite Lr, app_nil_r|].
    destruct oc as [c|]; [destruct Hmode as (_ & -> & _); discriminate|].
    destruct (convert_SHs_python pipe).
    + destruct Hmode as (S & v & e & _ & _ & _ & _ & _ & _ & _ & -> & _).
      discriminate.
    + destruct Hmode as (_ & -> & _). intros t [= <-]. simpl.
      now rewrite Lf, app_nil_r.
Qed.

(** ** A primitive at the camera position *)

Lemma fsub_self (x : scalar) : is_finite x = true -> fsub x x = fzero.
Proof.
  destruct x as [s|s| |s m e]; try discriminate; intros _.
  - destruct s; reflexivity.
  - unfold fsub, SFsub. rewrite Z.min_id. unfold shl_align.
    rewrite Z.sub_diag. cbn [fst].
    replace (Z.sub (cond_Zopp s (Zpos m)) (cond_Zopp s (Zpos m))) with 0%Z
      by (symmetry; apply Z.sub_diag).
    reflexivity.
Qed.

Lemma map2_fsub_self (c : list scalar) :
  forallb is_finite c = true -> map2 fsub c c = map (fun _ => fzero) c.
Proof.
  induction c as [|x c IH]; simpl; [reflexivity|].
  intro H. apply andb_prop in H as [Hx Hc].
  unfold map2 in *. simpl. rewrite (fsub_self x Hx). f_equal. now apply IH.
Qed.

Lemma nth_zeros (c : list scalar) (k : nat) :
  nth k (map (fun _ => fzero) c) fzero = fzero.
Proof.
  revert k; induction c as [|x c IH]; intros [|k]; simpl; auto.
Qed.

Lemma fdiv_zero_by_zero (z : scalar) :
  is_zero z = true -> fdiv fzero z = S754_nan.
Proof. destruct z; try discriminate. reflexivity. Qed.

Lemma unit_direction_self (c : list scalar) :
  forallb is_finite c = true ->
  is_zero (vector_norm (map (fun _ => fzero) c)) = true ->
  unit_direction c c = map (fun _ => S754_nan) c.
Proof.
  intros H Hz. unfold unit_direction. cbv zeta.
  rewrite (map2_fsub_self c H), map_map.
  apply map_ext. intros _. now apply fdiv_zero_by_zero.
Qed.

(** X9.  The view direction of a primitive whose position is the camera
    position is not a direction: the offset is zero, and when the norm of
    the zero vector is zero the division of line 94 leaves NaN in every
    coordinate of the row that [eval_sh] receives for it. *)
Theorem X9_direction_at_camera_is_nan (cam : Camera)
  (pc prePC : GaussianModel) (pipe : PipelineParams) (bg : tensor)
  (sm : scalar) (i : nat) :
  inputs_ok cam pc prePC sm ->
  view_keeps_shape ->
  convert_SHs_python pipe = true ->
  is_zero (vector_norm [fzero; fzero; fzero]) = true ->
  forallb is_finite (flat (camera_center cam)) = true ->
  nth_error (items (get_xyz pc) ++ items (get_xyz prePC)) i
  = Some (flat (camera_center cam)) ->
  exists S v rest,
    fst (run (render cam pc prePC pipe bg sm None))
    = EvRetainGrad grad_enabled
        :: EvEvalSH (active_sh_degree pc) S v :: rest
    /\ size0 v = size0 (get_xyz pc) + size0 (get_xyz prePC)
    /\ nth_error (items v) i = Some [S754_nan; S754_nan; S754_nan].
Proof.
  intros (H1 & H2 & Hcam & Hk) Hview Hc Hz Hfin Hrow.
  apply camera_ok_inv in Hcam as (Hcam & Hfov).
  destruct (color_inputs_eval cam pc prePC pipe sm H1 H2 Hcam Hview Hk Hc)
    as (S & v & Hrun & _ & _ & _ & Hiv).
  destruct (cloud_ok_sizes sm pc H1) as (Lx1 & _).
  destruct (cloud_ok_sizes sm prePC H2) as (Lx2 & _).
  exists S, v.
  rewrite (render_run cam pc prePC pipe bg sm None H1 H2 Hfov), Hrun.
  assert (Hlen : length (flat (camera_center cam)) = 3).
  { destruct (has_shape_inv _ _ _ Hcam) as (Hn & _ & F).
    unfold flat. rewrite (length_concat_rows 1 _ F).
    unfold size0 in Hn. lia. }
  assert (Hsz : size0 v = size0 (get_xyz pc) + size0 (get_xyz prePC)).
  { unfold size0 in *. now rewrite Hiv, length_map, length_app. }
  assert (Hnan : nth_error (items v) i
                 = Some [S754_nan; S754_nan; S754_nan]).
  { rewrite Hiv. rewrite (map_nth_error _ _ _ Hrow).
    destruct (flat (camera_center cam)) as [|x [|y [|z [|w l]]]] eqn:Ec;
      try discriminate.
    rewrite (unit_direction_self _ Hfin Hz). reflexivity. }
  destruct (eval_sh (active_sh_degree pc) S v) as [e|x].
  - eexists. split; [reflexivity|]. split; [exact Hsz | exact Hnan].
  - exists []. split; [reflexivity|]. split; [exact Hsz | exact Hnan].
Qed.

(** ** The layout of the features given to [eval_sh] *)

Lemma chunks_singletons (l : list scalar) :
  chunks (length l) 1 l = map (fun x => [x]) l.
Proof. induction l as [|x l IH]; simpl; [reflexivity | now rewrite IH]. Qed.

Lemma concat_singletons (l : list scalar) :
  concat (map (fun x => [x]) l) = l.
Proof. induction l as [|x l IH]; simpl; [reflexivity | now rewrite IH]. Qed.

Lemma nth_flat_map_seq (g : nat -> nat -> scalar) (a b s i j : nat) :
  i < a -> j < b ->
  nth (j * a + i) (flat_map (fun j => map (g j) (seq 0 a)) (seq s b)) fzero
  = g (s + j) i.
Proof.
  revert s j; induction b as [|b IH]; intros s j Hi Hj; [lia|].
  simpl. destruct j as [|j].
  - rewrite app_nth1 by (rewrite length_map, length_seq; lia).
    simpl. rewrite (nth_indep _ fzero (g s 0))
      by (rewrite length_map, length_seq; lia).
    rewrite map_nth, seq_nth by lia. now rewrite Nat.add_0_r.
  - rewrite app_nth2 by (rewrite length_map, length_seq; simpl; lia).
    rewrite length_map, length_seq.
    replace (S j * a + i - a) with (j * a + i) by (simpl; lia).
    rewrite IH by lia. f_equal. lia.
Qed.

Lemma transpose_item_entries (a b : nat) (it : list scalar) :
  length it = a * b ->
  transpose_item a b 1 it
  = flat_map (fun j => map (fun i => nth (i * b + j) it fzero) (seq 0 a))
             (seq 0 b).
Proof.
  intro Hlen. unfold transpose_item. rewrite <- Hlen, chunks_singletons.
  rewrite <- (concat_singletons
                (flat_map (fun j => map (fun i => nth (i * b + j) it fzero)
                                        (seq 0 a)) (seq 0 b))).
  f_equal. rewrite !flat_map_concat_map, concat_map, map_map.
  f_equal. apply map_ext_in. intros j Hj. rewrite map_map.
  apply map_ext_in. intros i Hi. apply in_seq in Hj, Hi.
  rewrite (nth_indep _ [] [fzero]) by (rewrite length_map; nia).
  apply (map_nth (fun x => [x])).
Qed.

Lemma sh_item_entry (k c j : nat) (it : list scalar) :
  length it = k * 3 -> c < 3 -> j < k ->
  nth (c * k + j) (sh_item k it) fzero = nth (j * 3 + c) it fzero.
Proof.
  intros Hlen Hc Hj. unfold sh_item.
  rewrite (transpose_item_entries k 3 it Hlen).
  now rewrite (nth_flat_map_seq (fun c j => nth (j * 3 + c) it fzero)).
Qed.

(** X10.  In the local-evaluation mode the tensor given to [eval_sh] has
    shape [(n1 + n2, 3, K)] and holds, for every merged primitive, one block
    per colour channel: its entry for channel [c] and coefficient [j] is the
    entry that [get_features] stores for coefficient [j] and channel [c].
    Nothing else is changed by the transpose and the view of lines 86-87. *)
Theorem X10_features_channel_major (cam : Camera)
  (pc prePC : GaussianModel) (pipe : PipelineParams) (bg : tensor)
  (sm : scalar) :
  inputs_ok cam pc prePC sm ->
  view_keeps_shape ->
  convert_SHs_python pipe = true ->
  exists S v rest,
    fst (run (render cam pc prePC pipe bg sm None))
    = EvRetainGrad grad_enabled
        :: EvEvalSH (active_sh_degree pc) S v :: rest
    /\ shape S
       = [size0 (get_xyz pc) + size0 (get_xyz prePC); 3; sh_coeffs pc]
    /\ forall p stored,
         nth_error (items (get_features pc) ++ items (get_features prePC)) p
         = Some stored ->
         exists given,
           nth_error (items S) p = Some given
           /\ length given = length stored
           /\ forall c j,
                c < 3 -> j < sh_coeffs pc ->
                nth (c * sh_coeffs pc + j) given fzero
                = nth (j * 3 + c) stored fzero.
Proof.
  intros (H1 & H2 & Hcam & Hk) Hview Hc.
  apply camera_ok_inv in Hcam as (Hcam & Hfov).
  destruct (color_inputs_eval cam pc prePC pipe sm H1 H2 Hcam Hview Hk Hc)
    as (S & v & Hrun & HsS & HiS & _ & _).
  destruct (cloud_ok_sizes sm pc H1) as (_ & _ & _ & _ & Lf1 & _).
  destruct (cloud_ok_sizes sm prePC H2) as (_ & _ & _ & _ & Lf2 & _).
  assert (Hk' : sh_coeffs prePC = sh_coeffs pc)
    by (unfold sh_coeffs; now rewrite Hk).
  exists S, v.
  rewrite (render_run cam pc prePC pipe bg sm None H1 H2 Hfov), Hrun.
  assert (Hshape : shape S
            = [size0 (get_xyz pc) + size0 (get_xyz prePC); 3; sh_coeffs pc]).
  { unfold shape, size0. rewrite HsS, HiS.
    now rewrite length_app, !length_map, Lf1, Lf2. }
  assert (Hrows :
    forall p stored,
      nth_error (items (get_features pc) ++ items (get_features prePC)) p
      = Some stored ->
      exists given,
        nth_error (items S) p = Some given
        /\ length given = length stored
        /\ forall c j,
             c < 3 -> j < sh_coeffs pc ->
             nth (c * sh_coeffs pc + j) given fzero
             = nth (j * 3 + c) stored fzero).
  { intros p stored Hp.
    rewrite HiS, Hk', <- map_app.
    exists (sh_item (sh_coeffs pc) stored).
    split; [now apply map_nth_error|].
    assert (Hlen : length stored = sh_coeffs pc * 3).
    { apply nth_error_In in Hp.
      apply cloud_ok_inv in H1 as (_ & _ & _ & _ & _ & Hf1 & _).
      apply cloud_ok_inv in H2 as (_ & _ & _ & _ & _ & Hf2 & _).
      destruct (has_shape_inv _ _ _ Hf1) as (_ & _ & F1).
      destruct (has_shape_inv _ _ _ Hf2) as (_ & _ & F2).
      rewrite Forall_forall in F1, F2.
      apply in_app_or in Hp as [Hp|Hp].
      - rewrite (F1 _ Hp). simpl. lia.
      - rewrite (F2 _ Hp), Hk'. simpl. lia. }
    split.
    - unfold sh_item. rewrite length_transpose_item; lia.
    - intros c j Hc' Hj. now apply sh_item_entry. }
  destruct (eval_sh (active_sh_degree pc) S v) as [e|x].
  - eexists. split; [reflexivity|]. split; [exact Hshape | exact Hrows].
  - exists []. split; [reflexivity|]. split; [exact Hshape | exact Hrows].
Qed.

(** ** The sizes of the returned entries *)



(** ** A field of view that is not finite *)

(** X12.  [math.tan] refuses an infinite angle: when half of either
    field-of-view angle is infinite the call ends in a [ValueError] at line
    40 or 41, after the gradient request and the concatenations of lines
    34-37, and neither [eval_sh] nor the rasterizer is invoked. *)
Theorem X12_infinite_field_of_view_raises (cam : Camera)
  (pc prePC : GaussianModel) (pipe : PipelineParams) (bg : tensor)
  (sm : scalar) (oc : option tensor) :
  cloud_ok sm pc = true -> cloud_ok sm prePC = true ->
  fov_ok cam = false ->
  run (render cam pc prePC pipe bg sm oc)
  = ([EvRetainGrad grad_enabled], Raise ValueError).
Proof.
  intros H1 H2 Hfov.
  rewrite (render_prefix cam pc prePC pipe bg sm oc H1 H2).
  unfold fov_ok in Hfov. apply andb_false_iff in Hfov.
  destruct (py_mul (FoVx cam) (fhalf py_prec py_emax)) as [sx|sx| |sx mx ex];
    try reflexivity;
    destruct (py_mul (FoVy cam) (fhalf py_prec py_emax))
      as [sy|sy| |sy my ey];
    try reflexivity; destruct Hfov; discriminate.
Qed.

End Render.

(* ===================================================================== *)
(** * The small scene, run *)
(* ===================================================================== *)

Lemma demo_inputs_ok :
  inputs_ok demo_camera demo_pc demo_prePC (f32 1 0).
Proof. unfold inputs_ok. repeat split; vm_compute; reflexivity. Defined.

Lemma demo_eval_sh_returns (d k : nat) : eval_sh_returns demo_eval_sh d k.
Proof.
  intros S v _ _ _. eexists. split; [reflexivity|].
  unfold size0. simpl. apply length_map.
Defined.

Lemma demo_view_keeps_shape : view_keeps_shape demo_view_allowed.
Proof.
  intro t. unfold demo_view_allowed, shape_eqb.
  destruct (list_eq_dec Nat.eq_dec (shape t) (shape t)) as [_|H];
    [reflexivity | now contradiction H].
Defined.

Lemma demo_moved_inputs_ok :
  inputs_ok demo_camera demo_pc_moved demo_prePC (f32 1 0).
Proof. unfold inputs_ok. repeat split; vm_compute; reflexivity. Defined.

Lemma C1_merged_tensors_dynamic_first_witness :
  inputs_ok demo_camera demo_pc demo_prePC (f32 1 0)
  /\ view_keeps_shape demo_view_allowed
  /\ eval_sh_returns demo_eval_sh (active_sh_degree demo_pc)
                     (sh_coeffs demo_pc)
  /\ exists tr s a,
       fst (run (render 24 128 true demo_rasterizer demo_eval_sh demo_tan demo_norm demo_view_allowed
                        demo_camera demo_pc demo_prePC (demo_pipe true true)
                        demo_bg (f32 1 0) None))
       = tr ++ [EvRasterize s a]
       /\ length (items (means3D a)) = 2 + 1
       /\ nth_error (items (means3D a)) 2 = Some (row_of [1; 2; 7]%Z).
Proof.
  split; [exact demo_inputs_ok|].
  split; [exact demo_view_keeps_shape|].
  split; [apply demo_eval_sh_returns|].
  destruct (C1_merged_tensors_dynamic_first 24 128 true demo_rasterizer
              demo_eval_sh demo_tan demo_norm demo_view_allowed demo_camera demo_pc demo_prePC
              (demo_pipe true true) demo_bg (f32 1 0) None
              demo_inputs_ok demo_view_keeps_shape
              (demo_eval_sh_returns _ _))
    as (tr & s & a & Htr & (_ & Hlen & _ & Hsnd) & _).
  exists tr, s, a. split; [exact Htr|]. split; [exact Hlen|].
  rewrite (Hsnd 2); [reflexivity | vm_compute; lia | vm_compute; lia].
Defined.

Lemma demo_at_camera_inputs_ok :
  inputs_ok demo_camera (with_active_sh_degree demo_pc_at_camera 1) demo_prePC
            (f32 1 0).
Proof. unfold inputs_ok. repeat split; vm_compute; reflexivity. Defined.

(** C2, as first stated, fails on a scene whose second primitive sits at
    the camera position: its direction is 0/0 in every coordinate, the
    evaluation at degree 1 uses the direction, and [clamp_min] hands the
    NaN on.  The colour row of that primitive is NaN in every entry, and no
    entry of it is zero or more. *)
Lemma C2_colour_input_can_be_nan :
  inputs_ok demo_camera (with_active_sh_degree demo_pc_at_camera 1) demo_prePC
            (f32 1 0)
  /\ view_keeps_shape demo_view_allowed
  /\ convert_SHs_python (demo_pipe false true) = true
  /\ exists (S v col : tensor) s a,
       fst (run (render 24 128 true demo_rasterizer demo_eval_sh_linear
                        demo_tan demo_norm demo_view_allowed demo_camera
                        (with_active_sh_degree demo_pc_at_camera 1)
                        demo_prePC (demo_pipe false true) demo_bg (f32 1 0)
                        None))
       = [EvRetainGrad true; EvEvalSH 1 S v; EvRasterize s a]
       /\ nth_error (items v) 1 = Some [S754_nan; S754_nan; S754_nan]
       /\ colors_precomp a = Some col
       /\ nth_error (items col) 1 = Some [S754_nan; S754_nan; S754_nan]
       /\ forall x, In x [S754_nan; S754_nan; S754_nan] ->
                    SFleb (S754_zero false) x = false.
Proof.
  split; [exact demo_at_camera_inputs_ok|].
  split; [exact demo_view_keeps_shape|].
  split; [reflexivity|].
  do 5 eexists. split; [vm_compute; reflexivity|].
  split; [reflexivity|]. split; [reflexivity|]. split; [reflexivity|].
  intros x [<-|[<-|[<-|[]]]]; reflexivity.
Qed.

Lemma C2_local_colour_evaluation_witness :
  inputs_ok demo_camera (with_active_sh_degree demo_pc_at_camera 1) demo_prePC
            (f32 1 0)
  /\ view_keeps_shape demo_view_allowed
  /\ convert_SHs_python (demo_pipe false true) = true
  /\ exists (S v e col : tensor) s a,
       fst (run (render 24 128 true demo_rasterizer demo_eval_sh_linear
                        demo_tan demo_norm demo_view_allowed demo_camera
                        (with_active_sh_degree demo_pc_at_camera 1)
                        demo_prePC (demo_pipe false true) demo_bg (f32 1 0)
                        None))
       = [EvRetainGrad true; EvEvalSH 1 S v; EvRasterize s a]
       /\ shape S = [3; 3; 4]
       /\ shape v = [3; 3]
       /\ nth_error (items v) 0
          = Some (unit_direction 24 128 demo_norm (row_of [1; 2; 3]%Z)
                                 (row_of [4; 2; 3]%Z))
       /\ demo_eval_sh_linear 1 S v = Ok e
       /\ colors_precomp a = Some col
       /\ nth_error (items col) 0
          = option_map
              (map (fun x =>
                      let y := SFadd 24 128 x (f32 1 (-1)) in
                      if SFltb y (S754_zero false) then S754_zero false
                      else y))
              (nth_error (items e) 0)
       /\ forall row x,
            In row (items col) -> In x row ->
            x = S754_nan \/ SFleb (S754_zero false) x = true.
Proof.
  split; [exact demo_at_camera_inputs_ok|].
  split; [exact demo_view_keeps_shape|].
  split; [reflexivity|].
  destruct (C2_local_colour_evaluation 24 128 true demo_rasterizer
              demo_eval_sh_linear demo_tan demo_norm demo_view_allowed
              demo_camera (with_active_sh_degree demo_pc_at_camera 1)
              demo_prePC (demo_pipe false true) demo_bg (f32 1 0)
              demo_at_camera_inputs_ok demo_view_keeps_shape eq_refl)
    as (S & v & rest & Htr & HS & _ & Hv & Hiv & Hcol & _).
  destruct (Hcol _ (eq_refl (demo_eval_sh_linear 1 S v)))
    as (s & a & col & Hrest & _ & Hc & _ & Hi & Hpos).
  exists S, v. eexists. exists col, s, a.
  split; [rewrite Htr, Hrest; reflexivity|].
  split; [exact HS|]. split; [exact Hv|].
  split; [rewrite Hiv; reflexivity|].
  split; [reflexivity|]. split; [exact Hc|].
  split; [rewrite Hi; apply nth_error_map|].
  intros row x Hrow Hx. exact (proj2 (Hpos row x Hrow Hx)).
Defined.

(** C3, as first stated, fails on the small scene: the raw features reach
    the rasterizer in the stored layout [(3, 4, 3)], primitive by
    coefficient by channel, not as [(3, 3, 4)], and the first primitive's
    block is the stored one, not its transpose. *)
Lemma C3_raw_features_not_reshaped :
  exists s a raw,
    fst (run (render 24 128 true demo_rasterizer demo_eval_sh demo_tan demo_norm demo_view_allowed
                     demo_camera demo_pc demo_prePC (demo_pipe false false)
                     demo_bg (f32 1 0) None))
    = [EvRetainGrad true; EvRasterize s a]
    /\ shs a = Some raw
    /\ shape raw = [3; 4; 3]
    /\ shape raw <> [2 + 1; 3; sh_coeffs demo_pc]
    /\ nth_error (items raw) 0 = Some demo_features_a
    /\ nth_error (items raw) 0 <> Some (sh_item 4 demo_features_a).
Proof.
  do 3 eexists. split; [vm_compute; reflexivity|].
  split; [reflexivity|]. split; [reflexivity|].
  split; [vm_compute; discriminate|].
  split; [reflexivity|]. vm_compute. discriminate.
Qed.

Lemma C3_raw_features_keep_layout_witness :
  inputs_ok demo_camera demo_pc demo_prePC (f32 1 0)
  /\ convert_SHs_python (demo_pipe false false) = false
  /\ exists s a raw,
       fst (run (render 24 128 true demo_rasterizer demo_eval_sh demo_tan demo_norm demo_view_allowed
                        demo_camera demo_pc demo_prePC (demo_pipe false false)
                        demo_bg (f32 1 0) None))
       = [EvRetainGrad true; EvRasterize s a]
       /\ shs a = Some raw
       /\ shape raw = [3; 4; 3].
Proof.
  split; [exact demo_inputs_ok|]. split; [reflexivity|].
  destruct (C3_raw_features_keep_layout 24 128 true demo_rasterizer
              demo_eval_sh demo_tan demo_norm demo_view_allowed demo_camera demo_pc demo_prePC
              (demo_pipe false false) demo_bg (f32 1 0)
              demo_inputs_ok eq_refl)
    as (s & a & raw & Htr & Hs & _ & Hsh & _).
  exists s, a, raw. split; [exact Htr|]. split; [exact Hs | exact Hsh].
Defined.

Lemma C4_geometry_inputs_exclusive_witness :
  inputs_ok demo_camera demo_pc demo_prePC (f32 1 0)
  /\ view_keeps_shape demo_view_allowed
  /\ eval_sh_returns demo_eval_sh (active_sh_degree demo_pc)
                     (sh_coeffs demo_pc)
  /\ exists tr s a,
       fst (run (render 24 128 true demo_rasterizer demo_eval_sh demo_tan demo_norm demo_view_allowed
                        demo_camera demo_pc demo_prePC (demo_pipe true false)
                        demo_bg (f32 1 0) None))
       = tr ++ [EvRasterize s a]
       /\ scales a = None /\ rotations a = None
       /\ exists cov, cov3D_precomp a = Some cov /\ size0 cov = 3.
Proof.
  split; [exact demo_inputs_ok|].
  split; [exact demo_view_keeps_shape|].
  split; [apply demo_eval_sh_returns|].
  destruct (C4_geometry_inputs_exclusive 24 128 true demo_rasterizer
              demo_eval_sh demo_tan demo_norm demo_view_allowed demo_camera demo_pc demo_prePC
              (demo_pipe true false) demo_bg (f32 1 0) None
              demo_inputs_ok demo_view_keeps_shape
              (demo_eval_sh_returns _ _))
    as (tr & s & a & Htr & Hcov & _).
  destruct (Hcov eq_refl) as (Hs & Hr & cov & Hc & Hn & _).
  exists tr, s, a. split; [exact Htr|]. split; [exact Hs|].
  split; [exact Hr|]. exists cov. split; [exact Hc | exact Hn].
Defined.

Lemma C5_override_colour_unchanged_witness :
  cloud_ok (f32 1 0) demo_pc = true
  /\ cloud_ok (f32 1 0) demo_prePC = true
  /\ fov_ok demo_camera = true
  /\ exists s a,
       fst (run (render 24 128 true demo_rasterizer demo_eval_sh demo_tan demo_norm demo_view_allowed
                        demo_camera demo_pc demo_prePC (demo_pipe false true)
                        demo_bg (f32 1 0) (Some demo_override)))
       = [EvRetainGrad true; EvRasterize s a]
       /\ colors_precomp a = Some demo_override
       /\ shs a = None.
Proof.
  split; [vm_compute; reflexivity|]. split; [vm_compute; reflexivity|].
  split; [vm_compute; reflexivity|].
  exact (proj1 (C5_override_colour_unchanged 24 128 true demo_rasterizer
                  demo_eval_sh demo_tan demo_norm demo_view_allowed demo_camera demo_pc demo_prePC
                  (demo_pipe false true) demo_bg (f32 1 0) demo_override
                  (proj1 demo_inputs_ok)
                  (proj1 (proj2 demo_inputs_ok))
                  eq_refl)).
Defined.

Lemma C6_one_colour_representation_witness :
  inputs_ok demo_camera demo_pc demo_prePC (f32 1 0)
  /\ view_keeps_shape demo_view_allowed
  /\ eval_sh_returns demo_eval_sh (active_sh_degree demo_pc)
                     (sh_coeffs demo_pc)
  /\ exists tr s a,
       fst (run (render 24 128 true demo_rasterizer demo_eval_sh demo_tan demo_norm demo_view_allowed
                        demo_camera demo_pc demo_prePC (demo_pipe false true)
                        demo_bg (f32 1 0) None))
       = tr ++ [EvRasterize s a]
       /\ shs a = None /\ colors_precomp a <> None.
Proof.
  split; [exact demo_inputs_ok|].
  split; [exact demo_view_keeps_shape|].
  split; [apply demo_eval_sh_returns|].
  destruct (C6_one_colour_representation 24 128 true demo_rasterizer
              demo_eval_sh demo_tan demo_norm demo_view_allowed demo_camera demo_pc demo_prePC
              (demo_pipe false true) demo_bg (f32 1 0) None
              demo_inputs_ok demo_view_keeps_shape
              (demo_eval_sh_returns _ _))
    as (tr & s & a & Htr & (Hs & S & v & e & _ & _ & Hc) & _).
  exists tr, s, a. split; [exact Htr|]. split; [exact Hs|].
  rewrite Hc. discriminate.
Defined.

Lemma C7_visibility_filter_witness :
  inputs_ok demo_camera demo_pc demo_prePC (f32 1 0)
  /\ view_keeps_shape demo_view_allowed
  /\ eval_sh_returns demo_eval_sh (active_sh_degree demo_pc)
                     (sh_coeffs demo_pc)
  /\ exists tr s a img rad r,
       fst (run (render 24 128 true demo_rasterizer demo_eval_sh demo_tan demo_norm demo_view_allowed
                        demo_camera demo_pc demo_prePC (demo_pipe false false)
                        demo_bg (f32 1 0) None))
       = tr ++ [EvRasterize s a]
       /\ demo_rasterizer s a = Ok (img, rad)
       /\ snd (run (render 24 128 true demo_rasterizer demo_eval_sh demo_tan demo_norm demo_view_allowed
                           demo_camera demo_pc demo_prePC
                           (demo_pipe false false) demo_bg (f32 1 0) None))
          = Ok r
       /\ radii r = rad
       /\ length (visibility_filter r) = 3
       /\ nth 0 (visibility_filter r) false = (0 <? nth 0 rad 0)%Z.
Proof.
  split; [exact demo_inputs_ok|].
  split; [exact demo_view_keeps_shape|].
  split; [apply demo_eval_sh_returns|].
  destruct (C7_visibility_filter 24 128 true demo_rasterizer
              demo_eval_sh demo_tan demo_norm demo_view_allowed demo_camera demo_pc demo_prePC
              (demo_pipe false false) demo_bg (f32 1 0) None
              demo_inputs_ok demo_view_keeps_shape
              (demo_eval_sh_returns _ _))
    as (tr & s & a & Htr & Hsz & Hret).
  destruct (Hret _ _ (eq_refl (demo_rasterizer s a)))
    as (r & Hr & Hrad & _ & Hnth & Hlen).
  exists tr, s, a. do 2 eexists. exists r.
  split; [exact Htr|]. split; [reflexivity|]. split; [exact Hr|].
  split; [exact Hrad|]. split; [|apply Hnth].
  apply Hlen. unfold size0. apply length_map.
Defined.

Lemma C8_viewspace_points_dynamic_only_witness :
  inputs_ok demo_camera demo_pc demo_prePC (f32 1 0)
  /\ view_keeps_shape demo_view_allowed
  /\ eval_sh_returns demo_eval_sh (active_sh_degree demo_pc)
                     (sh_coeffs demo_pc)
  /\ exists tr s a img rad r,
       fst (run (render 24 128 true demo_rasterizer demo_eval_sh demo_tan demo_norm demo_view_allowed
                        demo_camera demo_pc demo_prePC (demo_pipe false false)
                        demo_bg (f32 1 0) None))
       = tr ++ [EvRasterize s a]
       /\ demo_rasterizer s a = Ok (img, rad)
       /\ snd (run (render 24 128 true demo_rasterizer demo_eval_sh demo_tan demo_norm demo_view_allowed
                           demo_camera demo_pc demo_prePC
                           (demo_pipe false false) demo_bg (f32 1 0) None))
          = Ok r
       /\ size0 (viewspace_points r) = 2
       /\ size0 (means2D a) = 2 + 1
       /\ viewspace_points r <> means2D a.
Proof.
  split; [exact demo_inputs_ok|].
  split; [exact demo_view_keeps_shape|].
  split; [apply demo_eval_sh_returns|].
  destruct (C8_viewspace_points_dynamic_only 24 128 true demo_rasterizer
              demo_eval_sh demo_tan demo_norm demo_view_allowed demo_camera demo_pc demo_prePC
              (demo_pipe false false) demo_bg (f32 1 0) None
              demo_inputs_ok demo_view_keeps_shape
              (demo_eval_sh_returns _ _))
    as (tr & s & a & Htr & Hm & Hret).
  destruct (Hret _ _ (eq_refl (demo_rasterizer s a)))
    as (r & Hr & _ & Hn & _ & _ & Hne).
  exists tr, s, a. do 2 eexists. exists r.
  split; [exact Htr|]. split; [reflexivity|]. split; [exact Hr|].
  split; [exact Hn|]. split; [exact Hm|].
  apply Hne. vm_compute. lia.
Defined.

(** C9, as first stated, fails on the small scene: the request to retain
    the gradient is recorded before the rasterizer call, and nothing of the
    kind follows that call. *)
Lemma C9_retain_request_not_after_rasterization :
  (exists s a,
     fst (run (render 24 128 true demo_rasterizer demo_eval_sh demo_tan demo_norm demo_view_allowed
                      demo_camera demo_pc demo_prePC (demo_pipe false false)
                      demo_bg (f32 1 0) None))
     = [EvRetainGrad true; EvRasterize s a])
  /\ ~ (exists before after s a b,
          fst (run (render 24 128 true demo_rasterizer demo_eval_sh demo_tan demo_norm demo_view_allowed
                           demo_camera demo_pc demo_prePC
                           (demo_pipe false false) demo_bg (f32 1 0) None))
          = before ++ EvRasterize s a :: after
          /\ In (EvRetainGrad b) after).
Proof.
  assert (H : exists s a,
             fst (run (render 24 128 true demo_rasterizer demo_eval_sh
                              demo_tan demo_norm demo_view_allowed demo_camera demo_pc demo_prePC
                              (demo_pipe false false) demo_bg (f32 1 0) None))
             = [EvRetainGrad true; EvRasterize s a])
    by (do 2 eexists; vm_compute; reflexivity).
  split; [exact H|].
  destruct H as (s0 & a0 & H0). rewrite H0.
  intros (before & after & s & a & b & Heq & Hin).
  destruct before as [|e1 [|e2 before]]; simpl in Heq.
  - discriminate.
  - injection Heq as _ _ _ Hafter. subst after. exact Hin.
  - injection Heq as _ _ Hrest. destruct before; discriminate.
Qed.

Lemma C9_retain_request_comes_first_witness :
  inputs_ok demo_camera demo_pc demo_prePC (f32 1 0)
  /\ view_keeps_shape demo_view_allowed
  /\ eval_sh_returns demo_eval_sh (active_sh_degree demo_pc)
                     (sh_coeffs demo_pc)
  /\ (exists rest s a img rad r,
        fst (run (render 24 128 false demo_rasterizer demo_eval_sh demo_tan demo_norm demo_view_allowed
                         demo_camera demo_pc demo_prePC (demo_pipe false true)
                         demo_bg (f32 1 0) None))
        = EvRetainGrad false :: rest
        /\ In (EvRasterize s a) rest
        /\ demo_rasterizer s a = Ok (img, rad)
        /\ snd (run (render 24 128 false demo_rasterizer demo_eval_sh
                            demo_tan demo_norm demo_view_allowed demo_camera demo_pc demo_prePC
                            (demo_pipe false true) demo_bg (f32 1 0) None))
           = Ok r
        /\ requires_grad (viewspace_points r) = false
        /\ retains_grad (viewspace_points r) = false)
  /\ (exists rest s a,
        fst (run (render 24 128 true demo_rasterizer demo_eval_sh demo_tan demo_norm demo_view_allowed
                         demo_camera demo_pc demo_prePC (demo_pipe false true)
                         demo_bg (f32 1 0) None))
        = EvRetainGrad true :: rest
        /\ In (EvRasterize s a) rest
        /\ requires_grad (means2D a) = true
        /\ grad_inputs (means2D a) = [true; false]).
Proof.
  split; [exact demo_inputs_ok|].
  split; [exact demo_view_keeps_shape|].
  split; [apply demo_eval_sh_returns|].
  split.
  - destruct (C9_retain_request_comes_first 24 128 false demo_rasterizer
                demo_eval_sh demo_tan demo_norm demo_view_allowed demo_camera demo_pc demo_prePC
                (demo_pipe false true) demo_bg (f32 1 0) None
                demo_inputs_ok demo_view_keeps_shape
              (demo_eval_sh_returns _ _))
      as (rest & s & a & Htr & _ & Hin & _ & _ & _ & Hret).
    destruct (Hret _ _ (eq_refl (demo_rasterizer s a)))
      as (r & Hr & _ & Hrg & Hkeep & _).
    exists rest, s, a. do 2 eexists. exists r.
    split; [exact Htr|]. split; [exact Hin|]. split; [reflexivity|].
    split; [exact Hr|]. split; [exact Hrg | exact Hkeep].
  - destruct (C9_retain_request_comes_first 24 128 true demo_rasterizer
                demo_eval_sh demo_tan demo_norm demo_view_allowed demo_camera demo_pc demo_prePC
                (demo_pipe false true) demo_bg (f32 1 0) None
                demo_inputs_ok demo_view_keeps_shape
              (demo_eval_sh_returns _ _))
      as (rest & s & a & Htr & _ & Hin & _ & Hrg & Hgi & _).
    exists rest, s, a.
    split; [exact Htr|]. split; [exact Hin|]. split; [exact Hrg | exact Hgi].
Defined.

Lemma C10_stored_fields_and_accessors_witness :
  inputs_ok demo_camera demo_pc_moved demo_prePC (f32 1 0)
  /\ view_keeps_shape demo_view_allowed
  /\ eval_sh_returns demo_eval_sh (active_sh_degree demo_pc_moved)
                     (sh_coeffs demo_pc_moved)
  /\ exists tr s a S v,
       fst (run (render 24 128 true demo_rasterizer demo_eval_sh demo_tan demo_norm demo_view_allowed
                        demo_camera demo_pc_moved demo_prePC
                        (demo_pipe false true) demo_bg (f32 1 0) None))
       = tr ++ [EvRasterize s a]
       /\ nth_error (items (means3D a)) 0 = Some (row_of [4; 2; 3]%Z)
       /\ In (EvEvalSH 0 S v) tr
       /\ nth_error (items v) 0
          = Some (unit_direction 24 128 demo_norm (row_of [1; 2; 3]%Z)
                                 (row_of [4; 3; 3]%Z))
       /\ nth_error (items v) 0
          <> Some (unit_direction 24 128 demo_norm (row_of [1; 2; 3]%Z)
                                  (row_of [4; 2; 3]%Z)).
Proof.
  split; [exact demo_moved_inputs_ok|].
  split; [exact demo_view_keeps_shape|].
  split; [apply demo_eval_sh_returns|].
  destruct (C10_stored_fields_and_accessors 24 128 true demo_rasterizer
              demo_eval_sh demo_tan demo_norm demo_view_allowed demo_camera demo_pc_moved demo_prePC
              (demo_pipe false true) demo_bg (f32 1 0) None
              demo_moved_inputs_ok demo_view_keeps_shape
              (demo_eval_sh_returns _ _))
    as (tr & s & a & Htr & Hm & _ & _ & _ & Hdir).
  destruct (Hdir eq_refl eq_refl) as (S & v & HS & Hv).
  exists tr, s, a, S, v. split; [exact Htr|].
  split; [rewrite Hm; reflexivity|]. split; [exact HS|].
  rewrite Hv. split; [reflexivity|]. vm_compute. discriminate.
Defined.

(* ===================================================================== *)
(** * Further runs of the small scene *)
(* ===================================================================== *)

Lemma demo_empty_inputs_ok :
  inputs_ok demo_camera demo_pc demo_prePC_empty (f32 1 0).
Proof. unfold inputs_ok. repeat split; vm_compute; reflexivity. Defined.

Lemma X1_raster_settings_witness :
  inputs_ok demo_camera demo_pc demo_prePC (f32 1 0)
  /\ view_keeps_shape demo_view_allowed
  /\ eval_sh_returns demo_eval_sh (active_sh_degree demo_pc)
                     (sh_coeffs demo_pc)
  /\ inputs_ok demo_camera demo_pc demo_prePC_empty (f32 1 0)
  /\ exists tr s a tr' a',
       fst (run (render 24 128 true demo_rasterizer demo_eval_sh demo_tan demo_norm demo_view_allowed
                        demo_camera demo_pc demo_prePC (demo_pipe false true)
                        demo_bg (f32 1 0) None))
       = tr ++ [EvRasterize s a]
       /\ rs_sh_degree s = 0
       /\ (forall d S v, In (EvEvalSH d S v) tr -> d = 0)
       /\ rs_prefiltered s = false
       /\ fst (run (render 24 128 true demo_rasterizer demo_eval_sh demo_tan demo_norm demo_view_allowed
                           demo_camera demo_pc demo_prePC_empty
                           (demo_pipe false true) demo_bg (f32 1 0) None))
          = tr' ++ [EvRasterize s a'].
Proof.
  split; [exact demo_inputs_ok|].
  split; [exact demo_view_keeps_shape|].
  split; [apply demo_eval_sh_returns|].
  split; [exact demo_empty_inputs_ok|].
  destruct (X1_raster_settings 24 128 true demo_rasterizer
              demo_eval_sh demo_tan demo_norm demo_view_allowed demo_camera demo_pc demo_prePC
              (demo_pipe false true) demo_bg (f32 1 0) None
              demo_inputs_ok demo_view_keeps_shape
              (demo_eval_sh_returns _ _))
    as (tr & s & a & Htr & Hd & Hev & _ & _ & Hp & Hother).
  destruct (Hother demo_prePC_empty demo_empty_inputs_ok)
    as (tr' & a' & Htr').
  exists tr, s, a, tr', a'. split; [exact Htr|]. split; [exact Hd|].
  split; [intros d S v Hin; rewrite (Hev d S v Hin); exact Hd|].
  split; [exact Hp | exact Htr'].
Defined.

Lemma X2_rasterizer_outcome_passed_on_witness :
  inputs_ok demo_camera demo_pc demo_prePC (f32 1 0)
  /\ view_keeps_shape demo_view_allowed
  /\ eval_sh_returns demo_eval_sh (active_sh_degree demo_pc)
                     (sh_coeffs demo_pc)
  /\ snd (run (render 24 128 true failing_rasterizer demo_eval_sh demo_tan demo_norm demo_view_allowed
                      demo_camera demo_pc demo_prePC (demo_pipe false true)
                      demo_bg (f32 1 0) None))
     = Raise ExternalError.
Proof.
  split; [exact demo_inputs_ok|].
  split; [exact demo_view_keeps_shape|].
  split; [apply demo_eval_sh_returns|].
  destruct (X2_rasterizer_outcome_passed_on 24 128 true failing_rasterizer
              demo_eval_sh demo_tan demo_norm demo_view_allowed demo_camera demo_pc demo_prePC
              (demo_pipe false true) demo_bg (f32 1 0) None
              demo_inputs_ok demo_view_keeps_shape
              (demo_eval_sh_returns _ _))
    as (tr & s & a & _ & _ & Hraise).
  exact (Hraise ExternalError eq_refl).
Defined.

Lemma X3_eval_sh_failure_stops_render_witness :
  inputs_ok demo_camera demo_pc demo_prePC (f32 1 0)
  /\ view_keeps_shape demo_view_allowed
  /\ convert_SHs_python (demo_pipe false true) = true
  /\ exists S v,
       run (render 24 128 true demo_rasterizer failing_eval_sh demo_tan demo_norm demo_view_allowed
                   demo_camera demo_pc demo_prePC (demo_pipe false true)
                   demo_bg (f32 1 0) None)
       = ([EvRetainGrad true; EvEvalSH (active_sh_degree demo_pc) S v],
          Raise ExternalError)
       /\ size0 S = 3 /\ size0 v = 3.
Proof.
  split; [exact demo_inputs_ok|].
  split; [exact demo_view_keeps_shape|].
  split; [reflexivity|].
  destruct (X3_eval_sh_failure_stops_render 24 128 true demo_rasterizer
              failing_eval_sh demo_tan demo_norm demo_view_allowed demo_camera demo_pc demo_prePC
              (demo_pipe false true) demo_bg (f32 1 0)
              demo_inputs_ok demo_view_keeps_shape eq_refl)
    as (S & v & rest & Htr & HS & _ & Hv & _ & Hraise).
  destruct (Hraise ExternalError eq_refl) as (Hrest & Hsnd).
  exists S, v. split.
  - rewrite (surjective_pairing (run _)), Htr, Hrest, Hsnd. reflexivity.
  - split; [now injection HS | now injection Hv].
Defined.

Lemma X4_mismatched_sh_degree_raises_witness :
  cloud_ok (f32 1 0) demo_pc = true
  /\ cloud_ok (f32 1 0) demo_prePC_flat = true
  /\ fov_ok demo_camera = true
  /\ view_keeps_shape demo_view_allowed
  /\ max_sh_degree demo_pc <> max_sh_degree demo_prePC_flat
  /\ run (render 24 128 true demo_rasterizer demo_eval_sh demo_tan demo_norm demo_view_allowed
                 demo_camera demo_pc demo_prePC_flat (demo_pipe false false)
                 demo_bg (f32 1 0) None)
     = ([EvRetainGrad true], Raise RuntimeError)
  /\ run (render 24 128 true demo_rasterizer demo_eval_sh demo_tan demo_norm demo_view_allowed
                 demo_camera demo_pc demo_prePC_flat (demo_pipe false true)
                 demo_bg (f32 1 0) None)
     = ([EvRetainGrad true], Raise RuntimeError).
Proof.
  assert (H1 : cloud_ok (f32 1 0) demo_pc = true)
    by (vm_compute; reflexivity).
  assert (H2 : cloud_ok (f32 1 0) demo_prePC_flat = true)
    by (vm_compute; reflexivity).
  assert (Hf : fov_ok demo_camera = true)
    by (vm_compute; reflexivity).
  assert (Hne : max_sh_degree demo_pc <> max_sh_degree demo_prePC_flat)
    by (simpl; lia).
  split; [exact H1|]. split; [exact H2|]. split; [exact Hf|].
  split; [exact demo_view_keeps_shape|]. split; [exact Hne|].
  split.
  - exact (X4_mismatched_sh_degree_raises 24 128 true demo_rasterizer
             demo_eval_sh demo_tan demo_norm demo_view_allowed demo_camera demo_pc demo_prePC_flat
             (demo_pipe false false) demo_bg (f32 1 0) H1 H2 Hf
             demo_view_keeps_shape Hne).
  - exact (X4_mismatched_sh_degree_raises 24 128 true demo_rasterizer
             demo_eval_sh demo_tan demo_norm demo_view_allowed demo_camera demo_pc demo_prePC_flat
             (demo_pipe false true) demo_bg (f32 1 0) H1 H2 Hf
             demo_view_keeps_shape Hne).
Defined.

Lemma X5_collaborator_calls_witness :
  inputs_ok demo_camera demo_pc demo_prePC (f32 1 0)
  /\ view_keeps_shape demo_view_allowed
  /\ eval_sh_returns demo_eval_sh (active_sh_degree demo_pc)
                     (sh_coeffs demo_pc)
  /\ exists s a,
       fst (run (render 24 128 true demo_rasterizer demo_eval_sh demo_tan demo_norm demo_view_allowed
                        demo_camera demo_pc demo_prePC (demo_pipe false true)
                        demo_bg (f32 1 0) (Some demo_override)))
       = [EvRetainGrad true; EvRasterize s a].
Proof.
  split; [exact demo_inputs_ok|].
  split; [exact demo_view_keeps_shape|].
  split; [apply demo_eval_sh_returns|].
  exact (X5_collaborator_calls 24 128 true demo_rasterizer
           demo_eval_sh demo_tan demo_norm demo_view_allowed demo_camera demo_pc demo_prePC
           (demo_pipe false true) demo_bg (f32 1 0) (Some demo_override)
           demo_inputs_ok demo_view_keeps_shape
              (demo_eval_sh_returns _ _)).
Defined.

Lemma X7_gradient_flags_of_merged_inputs_witness :
  inputs_ok demo_camera demo_pc demo_prePC (f32 1 0)
  /\ view_keeps_shape demo_view_allowed
  /\ eval_sh_returns demo_eval_sh (active_sh_degree demo_pc)
                     (sh_coeffs demo_pc)
  /\ exists tr s a,
       fst (run (render 24 128 true demo_rasterizer demo_eval_sh demo_tan demo_norm demo_view_allowed
                        demo_camera demo_pc demo_prePC (demo_pipe false false)
                        demo_bg (f32 1 0) None))
       = tr ++ [EvRasterize s a]
       /\ requires_grad (means3D a) = true
       /\ grad_inputs (means3D a)
          = [requires_grad (_xyz demo_pc); requires_grad (_xyz demo_prePC)]
       /\ requires_grad (means2D a) = true
       /\ grad_inputs (means2D a) = [true; false].
Proof.
  split; [exact demo_inputs_ok|].
  split; [exact demo_view_keeps_shape|].
  split; [apply demo_eval_sh_returns|].
  destruct (X7_gradient_flags_of_merged_inputs 24 128 true demo_rasterizer
              demo_eval_sh demo_tan demo_norm demo_view_allowed demo_camera demo_pc demo_prePC
              (demo_pipe false false) demo_bg (f32 1 0) None
              demo_inputs_ok demo_view_keeps_shape
              (demo_eval_sh_returns _ _))
    as (tr & s & a & Htr & H3 & G3 & _ & _ & H2 & _ & _ & G2).
  exists tr, s, a. split; [exact Htr|]. split; [exact H3|].
  split; [exact (G3 H3)|]. split; [exact H2 | exact G2].
Defined.

Lemma X8_empty_secondary_cloud_witness :
  inputs_ok demo_camera demo_pc demo_prePC_empty (f32 1 0)
  /\ view_keeps_shape demo_view_allowed
  /\ eval_sh_returns demo_eval_sh (active_sh_degree demo_pc)
                     (sh_coeffs demo_pc)
  /\ size0 (get_xyz demo_prePC_empty) = 0
  /\ exists tr s a,
       fst (run (render 24 128 true demo_rasterizer demo_eval_sh demo_tan demo_norm demo_view_allowed
                        demo_camera demo_pc demo_prePC_empty
                        (demo_pipe true false) demo_bg (f32 1 0) None))
       = tr ++ [EvRasterize s a]
       /\ items (means3D a) = items (_xyz demo_pc)
       /\ items (means2D a) = zero_rows (get_xyz demo_pc).
Proof.
  split; [exact demo_empty_inputs_ok|].
  split; [exact demo_view_keeps_shape|].
  split; [apply demo_eval_sh_returns|].
  split; [reflexivity|].
  destruct (X8_empty_secondary_cloud 24 128 true demo_rasterizer
              demo_eval_sh demo_tan demo_norm demo_view_allowed demo_camera demo_pc demo_prePC_empty
              (demo_pipe true false) demo_bg (f32 1 0) None
              demo_empty_inputs_ok demo_view_keeps_shape
              (demo_eval_sh_returns _ _) eq_refl)
    as (tr & s & a & Htr & H3 & _ & H2 & _).
  exists tr, s, a. split; [exact Htr|]. split; [exact H3 | exact H2].
Defined.

Lemma X9_direction_at_camera_is_nan_witness :
  inputs_ok demo_camera (with_active_sh_degree demo_pc_at_camera 1) demo_prePC
            (f32 1 0)
  /\ view_keeps_shape demo_view_allowed
  /\ convert_SHs_python (demo_pipe false true) = true
  /\ is_zero (demo_norm [fzero; fzero; fzero]) = true
  /\ forallb is_finite (flat (camera_center demo_camera)) = true
  /\ nth_error (items (get_xyz demo_pc_at_camera)
                ++ items (get_xyz demo_prePC)) 1
     = Some (flat (camera_center demo_camera))
  /\ exists S v rest,
       fst (run (render 24 128 true demo_rasterizer demo_eval_sh demo_tan demo_norm demo_view_allowed
                        demo_camera
                        (with_active_sh_degree demo_pc_at_camera 1)
                        demo_prePC (demo_pipe false true) demo_bg (f32 1 0)
                        None))
       = EvRetainGrad true :: EvEvalSH 1 S v :: rest
       /\ size0 v = 2 + 1
       /\ nth_error (items v) 1 = Some [S754_nan; S754_nan; S754_nan].
Proof.
  split; [exact demo_at_camera_inputs_ok|].
  split; [exact demo_view_keeps_shape|].
  split; [reflexivity|]. split; [reflexivity|].
  split; [reflexivity|]. split; [reflexivity|].
  exact (X9_direction_at_camera_is_nan 24 128 true demo_rasterizer
           demo_eval_sh demo_tan demo_norm demo_view_allowed demo_camera
           (with_active_sh_degree demo_pc_at_camera 1) demo_prePC
           (demo_pipe false true) demo_bg (f32 1 0) 1
           demo_at_camera_inputs_ok demo_view_keeps_shape
           eq_refl eq_refl eq_refl eq_refl).
Defined.

Lemma X10_features_channel_major_witness :
  inputs_ok demo_camera demo_pc demo_prePC (f32 1 0)
  /\ view_keeps_shape demo_view_allowed
  /\ convert_SHs_python (demo_pipe false true) = true
  /\ exists S v rest given,
       fst (run (render 24 128 true demo_rasterizer demo_eval_sh demo_tan demo_norm demo_view_allowed
                        demo_camera demo_pc demo_prePC (demo_pipe false true)
                        demo_bg (f32 1 0) None))
       = EvRetainGrad true
           :: EvEvalSH (active_sh_degree demo_pc) S v :: rest
       /\ shape S = [3; 3; 4]
       /\ nth_error (items S) 0 = Some given
       /\ nth (2 * 4 + 1) given fzero = f32 6 0.
Proof.
  split; [exact demo_inputs_ok|].
  split; [exact demo_view_keeps_shape|].
  split; [reflexivity|].
  destruct (X10_features_channel_major 24 128 true demo_rasterizer
              demo_eval_sh demo_tan demo_norm demo_view_allowed demo_camera demo_pc demo_prePC
              (demo_pipe false true) demo_bg (f32 1 0)
              demo_inputs_ok demo_view_keeps_shape eq_refl)
    as (S & v & rest & Htr & Hsh & Hrows).
  destruct (Hrows 0 demo_features_a eq_refl) as (given & Hg & _ & Hent).
  exists S, v, rest, given. split; [exact Htr|]. split; [exact Hsh|].
  split; [exact Hg|].
  change (2 * 4 + 1) with (2 * sh_coeffs demo_pc + 1).
  rewrite (Hent 2 1); [reflexivity | lia | vm_compute; lia].
Defined.


Lemma X12_infinite_field_of_view_raises_witness :
  cloud_ok (f32 1 0) demo_pc = true
  /\ cloud_ok (f32 1 0) demo_prePC = true
  /\ fov_ok demo_camera_unbounded = false
  /\ run (render 24 128 true demo_rasterizer demo_eval_sh demo_tan demo_norm demo_view_allowed
                 demo_camera_unbounded demo_pc demo_prePC
                 (demo_pipe false true) demo_bg (f32 1 0) None)
     = ([EvRetainGrad true], Raise ValueError).
Proof.
  split; [vm_compute; reflexivity|]. split; [vm_compute; reflexivity|].
  split; [vm_compute; reflexivity|].
  exact (X12_infinite_field_of_view_raises 24 128 true demo_rasterizer
           demo_eval_sh demo_tan demo_norm demo_view_allowed demo_camera_unbounded demo_pc demo_prePC
           (demo_pipe false true) demo_bg (f32 1 0) None
           (proj1 demo_inputs_ok) (proj1 (proj2 demo_inputs_ok)) eq_refl).
Defined.
